(** * tmux-sessions: the Alfred workflow script, embedded and verified

    A shallow embedding of [src/tmux-sessions.py].  Every Python function
    of the script is a Rocq definition of the same name; the built-ins it
    calls ([str.split], [str.isdigit], [int], [str.lower], [str.strip],
    [sorted], [json.dumps], [datetime] subtraction, [subprocess.run]) are
    modelled in the first modules.  The definitions come first, then the
    vocabulary the statements use, then sample runs, facts about the
    built-ins, and the properties of the script, one section per
    component.

    Conventions of the model.
    - A Python [str] is a [string]: the UTF-8 bytes of the text.  Splitting
      on an ASCII separator, substring search and ordering agree on UTF-8
      bytes and on code points.  The built-ins that look at characters
      ([str.isdigit], [int], [str.strip], [str.lower]) decode the bytes to
      code points and follow the character database of Unicode 14.0, the
      one of the interpreter's [unicodedata]: digits and white space of
      every script, the lower-case mappings, and the final form of the
      Greek sigma.  A byte that belongs to no UTF-8 sequence is read as
      the lone surrogate the interpreter decodes it to on the command
      line, which is no digit, no white space and no letter.
    - A Python [int] is a [Z]; the interpreter's optional cap on the
      number of digits accepted by [int] is not modelled.
    - Exceptions are values of [exn], all of them under [Exception]; code
      that can raise lives in the [result] monad and [try_except] is the
      [try] statement.
    - [datetime.now()] is a parameter [now] of the functions that read the
      clock, and the host that runs tmux is a parameter of those that
      launch it.  Local times are read in UTC: a zone whose offset differs
      between two instants shifts their difference by that much, which is
      not modelled.
    - Standard output is the list of texts handed to [print], which is
      taken not to fail. *)

From Stdlib Require Import Bool List ZArith NArith Lia String Ascii.
From Stdlib Require Import Permutation Sorted.
Import ListNotations.

Local Open Scope string_scope.
Local Open Scope Z_scope.

(* ===================================================================== *)
(** * Exceptions and the [result] monad *)
(* ===================================================================== *)

Module Py.

(** The exception classes the script can meet.  [Exception] is the root of
    everything an [except Exception] clause catches. *)
Inductive exn_class : Set :=
| Exception
| ValueError
| IndexError
| OverflowError
| OSError
| FileNotFoundError
| PermissionError
| UnicodeDecodeError
| CalledProcessError
| TimeoutExpired.

Definition exn_class_eqb (c d : exn_class) : bool :=
  match c, d with
  | Exception, Exception | ValueError, ValueError | IndexError, IndexError
  | OverflowError, OverflowError | OSError, OSError
  | FileNotFoundError, FileNotFoundError | PermissionError, PermissionError
  | UnicodeDecodeError, UnicodeDecodeError
  | CalledProcessError, CalledProcessError
  | TimeoutExpired, TimeoutExpired => true
  | _, _ => false
  end.

(** [issubclass c d]: the class hierarchy of the standard library, cut down
    to the classes above. *)
Definition issubclass (c d : exn_class) : bool :=
  exn_class_eqb c d ||
  match d, c with
  | Exception, _ => true
  | OSError, (FileNotFoundError | PermissionError) => true
  | ValueError, UnicodeDecodeError => true
  | _, _ => false
  end.

(** An exception instance: its class and [str(e)]. *)
Record exn : Set := mk_exn { exn_cls : exn_class; exn_str : string }.

Inductive result (A : Type) : Type :=
| Ok (a : A)
| Raise (e : exn).
Arguments Ok {A} a.
Arguments Raise {A} e.

Definition bind {A B : Type} (m : result A) (k : A -> result B) : result B :=
  match m with
  | Ok a => k a
  | Raise e => Raise e
  end.

(** [except (c1, c2, ...)]: does the clause catch [e]? *)
Definition catches (classes : list exn_class) (e : exn) : bool :=
  existsb (issubclass (exn_cls e)) classes.

(** One [except classes as e: handler e] clause. *)
Definition clause (A : Type) : Type := (list exn_class * (exn -> result A))%type.

(** The first clause that catches [e] handles it; with none, [e] goes on. *)
Fixpoint dispatch {A : Type} (clauses : list (clause A)) (e : exn) : result A :=
  match clauses with
  | [] => Raise e
  | (classes, handler) :: rest =>
      if catches classes e then handler e else dispatch rest e
  end.

(** [try: body  except ...: ...  except ...: ...]. *)
Definition try_except {A : Type} (body : result A) (clauses : list (clause A))
  : result A :=
  match body with
  | Ok a => Ok a
  | Raise e => dispatch clauses e
  end.

(** [xs[i]] on a list. *)
Definition getitem {A : Type} (xs : list A) (i : nat) : result A :=
  match nth_error xs i with
  | Some x => Ok x
  | None => Raise (mk_exn IndexError "list index out of range")
  end.

End Py.

Import Py.

Declare Scope py_scope.
Delimit Scope py_scope with py.
Notation "x <- m ;; k" := (bind m (fun x => k))
  (at level 61, m at next level, right associativity) : py_scope.
Local Open Scope py_scope.

(* ===================================================================== *)
(** * The Unicode character database behind [str] *)
(* ===================================================================== *)

(** The tables are those of Unicode 14.0, the version CPython 3.11 ships;
    ASCII is decided by arithmetic and only the code points from 128 on
    are looked up. *)
Module Unicode.

(** Code points above ASCII that [str.isspace] accepts. *)
Definition space_ranges : list (N * N) :=
  [(133, 133); (160, 160); (5760, 5760); (8192, 8202); (8232, 8233);
   (8239, 8239); (8287, 8287); (12288, 12288)]%N.

(** Code points above ASCII that [str.isdigit] accepts. *)
Definition digit_ranges : list (N * N) :=
  [(178, 179); (185, 185); (1632, 1641); (1776, 1785); (1984, 1993);
   (2406, 2415); (2534, 2543); (2662, 2671); (2790, 2799); (2918, 2927);
   (3046, 3055); (3174, 3183); (3302, 3311); (3430, 3439); (3558, 3567);
   (3664, 3673); (3792, 3801); (3872, 3881); (4160, 4169); (4240, 4249);
   (4969, 4977); (6112, 6121); (6160, 6169); (6470, 6479); (6608, 6618);
   (6784, 6793); (6800, 6809); (6992, 7001); (7088, 7097); (7232, 7241);
   (7248, 7257); (8304, 8304); (8308, 8313); (8320, 8329); (9312, 9320);
   (9332, 9340); (9352, 9360); (9450, 9450); (9461, 9469); (9471, 9471);
   (10102, 10110); (10112, 10120); (10122, 10130); (42528, 42537);
   (43216, 43225); (43264, 43273); (43472, 43481); (43504, 43513);
   (43600, 43609); (44016, 44025); (65296, 65305); (66720, 66729);
   (68160, 68163); (68912, 68921); (69216, 69224); (69714, 69722);
   (69734, 69743); (69872, 69881); (69942, 69951); (70096, 70105);
   (70384, 70393); (70736, 70745); (70864, 70873); (71248, 71257);
   (71360, 71369); (71472, 71481); (71904, 71913); (72016, 72025);
   (72784, 72793); (73040, 73049); (73120, 73129); (92768, 92777);
   (92864, 92873); (93008, 93017); (120782, 120831); (123200, 123209);
   (123632, 123641); (125264, 125273); (127232, 127242); (130032, 130041)]%N.

(** Code points above ASCII that are decimal digits: runs of ten (or of
    several tens), each starting at a zero. *)
Definition decimal_ranges : list (N * N) :=
  [(1632, 1641); (1776, 1785); (1984, 1993); (2406, 2415); (2534, 2543);
   (2662, 2671); (2790, 2799); (2918, 2927); (3046, 3055); (3174, 3183);
   (3302, 3311); (3430, 3439); (3558, 3567); (3664, 3673); (3792, 3801);
   (3872, 3881); (4160, 4169); (4240, 4249); (6112, 6121); (6160, 6169);
   (6470, 6479); (6608, 6617); (6784, 6793); (6800, 6809); (6992, 7001);
   (7088, 7097); (7232, 7241); (7248, 7257); (42528, 42537); (43216, 43225);
   (43264, 43273); (43472, 43481); (43504, 43513); (43600, 43609);
   (44016, 44025); (65296, 65305); (66720, 66729); (68912, 68921);
   (69734, 69743); (69872, 69881); (69942, 69951); (70096, 70105);
   (70384, 70393); (70736, 70745); (70864, 70873); (71248, 71257);
   (71360, 71369); (71472, 71481); (71904, 71913); (72016, 72025);
   (72784, 72793); (73040, 73049); (73120, 73129); (92768, 92777);
   (92864, 92873); (93008, 93017); (120782, 120831); (123200, 123209);
   (123632, 123641); (125264, 125273); (130032, 130041)]%N.

(** Lower-case mappings above ASCII: from [lo] to [hi] in steps of [step],
    add [delta]. *)
Definition lower_table : list (Z * Z * Z * Z) :=
  [(192, 214, 1, 32); (216, 222, 1, 32); (256, 302, 2, 1); (306, 310, 2, 1);
   (313, 327, 2, 1); (330, 374, 2, 1); (376, 376, 1, (-121));
   (377, 381, 2, 1); (385, 385, 1, 210); (386, 388, 2, 1);
   (390, 390, 1, 206); (391, 391, 1, 1); (393, 394, 1, 205);
   (395, 395, 1, 1); (398, 398, 1, 79); (399, 399, 1, 202);
   (400, 400, 1, 203); (401, 401, 1, 1); (403, 403, 1, 205);
   (404, 404, 1, 207); (406, 406, 1, 211); (407, 407, 1, 209);
   (408, 408, 1, 1); (412, 412, 1, 211); (413, 413, 1, 213);
   (415, 415, 1, 214); (416, 420, 2, 1); (422, 422, 1, 218);
   (423, 423, 1, 1); (425, 425, 1, 218); (428, 428, 1, 1);
   (430, 430, 1, 218); (431, 431, 1, 1); (433, 434, 1, 217);
   (435, 437, 2, 1); (439, 439, 1, 219); (440, 440, 1, 1); (444, 444, 1, 1);
   (452, 452, 1, 2); (453, 453, 1, 1); (455, 455, 1, 2); (456, 456, 1, 1);
   (458, 458, 1, 2); (459, 475, 2, 1); (478, 494, 2, 1); (497, 497, 1, 2);
   (498, 500, 2, 1); (502, 502, 1, (-97)); (503, 503, 1, (-56));
   (504, 542, 2, 1); (544, 544, 1, (-130)); (546, 562, 2, 1);
   (570, 570, 1, 10795); (571, 571, 1, 1); (573, 573, 1, (-163));
   (574, 574, 1, 10792); (577, 577, 1, 1); (579, 579, 1, (-195));
   (580, 580, 1, 69); (581, 581, 1, 71); (582, 590, 2, 1); (880, 882, 2, 1);
   (886, 886, 1, 1); (895, 895, 1, 116); (902, 902, 1, 38);
   (904, 906, 1, 37); (908, 908, 1, 64); (910, 911, 1, 63);
   (913, 929, 1, 32); (931, 939, 1, 32); (975, 975, 1, 8); (984, 1006, 2, 1);
   (1012, 1012, 1, (-60)); (1015, 1015, 1, 1); (1017, 1017, 1, (-7));
   (1018, 1018, 1, 1); (1021, 1023, 1, (-130)); (1024, 1039, 1, 80);
   (1040, 1071, 1, 32); (1120, 1152, 2, 1); (1162, 1214, 2, 1);
   (1216, 1216, 1, 15); (1217, 1229, 2, 1); (1232, 1326, 2, 1);
   (1329, 1366, 1, 48); (4256, 4293, 1, 7264); (4295, 4295, 1, 7264);
   (4301, 4301, 1, 7264); (5024, 5103, 1, 38864); (5104, 5109, 1, 8);
   (7312, 7354, 1, (-3008)); (7357, 7359, 1, (-3008)); (7680, 7828, 2, 1);
   (7838, 7838, 1, (-7615)); (7840, 7934, 2, 1); (7944, 7951, 1, (-8));
   (7960, 7965, 1, (-8)); (7976, 7983, 1, (-8)); (7992, 7999, 1, (-8));
   (8008, 8013, 1, (-8)); (8025, 8031, 2, (-8)); (8040, 8047, 1, (-8));
   (8072, 8079, 1, (-8)); (8088, 8095, 1, (-8)); (8104, 8111, 1, (-8));
   (8120, 8121, 1, (-8)); (8122, 8123, 1, (-74)); (8124, 8124, 1, (-9));
   (8136, 8139, 1, (-86)); (8140, 8140, 1, (-9)); (8152, 8153, 1, (-8));
   (8154, 8155, 1, (-100)); (8168, 8169, 1, (-8)); (8170, 8171, 1, (-112));
   (8172, 8172, 1, (-7)); (8184, 8185, 1, (-128)); (8186, 8187, 1, (-126));
   (8188, 8188, 1, (-9)); (8486, 8486, 1, (-7517)); (8490, 8490, 1, (-8383));
   (8491, 8491, 1, (-8262)); (8498, 8498, 1, 28); (8544, 8559, 1, 16);
   (8579, 8579, 1, 1); (9398, 9423, 1, 26); (11264, 11311, 1, 48);
   (11360, 11360, 1, 1); (11362, 11362, 1, (-10743));
   (11363, 11363, 1, (-3814)); (11364, 11364, 1, (-10727));
   (11367, 11371, 2, 1); (11373, 11373, 1, (-10780));
   (11374, 11374, 1, (-10749)); (11375, 11375, 1, (-10783));
   (11376, 11376, 1, (-10782)); (11378, 11378, 1, 1); (11381, 11381, 1, 1);
   (11390, 11391, 1, (-10815)); (11392, 11490, 2, 1); (11499, 11501, 2, 1);
   (11506, 11506, 1, 1); (42560, 42604, 2, 1); (42624, 42650, 2, 1);
   (42786, 42798, 2, 1); (42802, 42862, 2, 1); (42873, 42875, 2, 1);
   (42877, 42877, 1, (-35332)); (42878, 42886, 2, 1); (42891, 42891, 1, 1);
   (42893, 42893, 1, (-42280)); (42896, 42898, 2, 1); (42902, 42920, 2, 1);
   (42922, 42922, 1, (-42308)); (42923, 42923, 1, (-42319));
   (42924, 42924, 1, (-42315)); (42925, 42925, 1, (-42305));
   (42926, 42926, 1, (-42308)); (42928, 42928, 1, (-42258));
   (42929, 42929, 1, (-42282)); (42930, 42930, 1, (-42261));
   (42931, 42931, 1, 928); (42932, 42946, 2, 1); (42948, 42948, 1, (-48));
   (42949, 42949, 1, (-42307)); (42950, 42950, 1, (-35384));
   (42951, 42953, 2, 1); (42960, 42960, 1, 1); (42966, 42968, 2, 1);
   (42997, 42997, 1, 1); (65313, 65338, 1, 32); (66560, 66599, 1, 40);
   (66736, 66771, 1, 40); (66928, 66938, 1, 39); (66940, 66954, 1, 39);
   (66956, 66962, 1, 39); (66964, 66965, 1, 39); (68736, 68786, 1, 64);
   (71840, 71871, 1, 32); (93760, 93791, 1, 32); (125184, 125217, 1, 34)]%Z.

(** Cased code points above ASCII that are not case-ignorable. *)
Definition cased_ranges : list (N * N) :=
  [(170, 170); (181, 181); (186, 186); (192, 214); (216, 246); (248, 442);
   (444, 447); (452, 659); (661, 687); (880, 883); (886, 887); (891, 893);
   (895, 895); (902, 902); (904, 906); (908, 908); (910, 929); (931, 1013);
   (1015, 1153); (1162, 1327); (1329, 1366); (1376, 1416); (4256, 4293);
   (4295, 4295); (4301, 4301); (4304, 4346); (4349, 4351); (5024, 5109);
   (5112, 5117); (7296, 7304); (7312, 7354); (7357, 7359); (7424, 7467);
   (7531, 7543); (7545, 7578); (7680, 7957); (7960, 7965); (7968, 8005);
   (8008, 8013); (8016, 8023); (8025, 8025); (8027, 8027); (8029, 8029);
   (8031, 8061); (8064, 8116); (8118, 8124); (8126, 8126); (8130, 8132);
   (8134, 8140); (8144, 8147); (8150, 8155); (8160, 8172); (8178, 8180);
   (8182, 8188); (8450, 8450); (8455, 8455); (8458, 8467); (8469, 8469);
   (8473, 8477); (8484, 8484); (8486, 8486); (8488, 8488); (8490, 8493);
   (8495, 8500); (8505, 8505); (8508, 8511); (8517, 8521); (8526, 8526);
   (8544, 8575); (8579, 8580); (9398, 9449); (11264, 11387); (11390, 11492);
   (11499, 11502); (11506, 11507); (11520, 11557); (11559, 11559);
   (11565, 11565); (42560, 42605); (42624, 42651); (42786, 42863);
   (42865, 42887); (42891, 42894); (42896, 42954); (42960, 42961);
   (42963, 42963); (42965, 42969); (42997, 42998); (43002, 43002);
   (43824, 43866); (43872, 43880); (43888, 43967); (64256, 64262);
   (64275, 64279); (65313, 65338); (65345, 65370); (66560, 66639);
   (66736, 66771); (66776, 66811); (66928, 66938); (66940, 66954);
   (66956, 66962); (66964, 66965); (66967, 66977); (66979, 66993);
   (66995, 67001); (67003, 67004); (68736, 68786); (68800, 68850);
   (71840, 71903); (93760, 93823); (119808, 119892); (119894, 119964);
   (119966, 119967); (119970, 119970); (119973, 119974); (119977, 119980);
   (119982, 119993); (119995, 119995); (119997, 120003); (120005, 120069);
   (120071, 120074); (120077, 120084); (120086, 120092); (120094, 120121);
   (120123, 120126); (120128, 120132); (120134, 120134); (120138, 120144);
   (120146, 120485); (120488, 120512); (120514, 120538); (120540, 120570);
   (120572, 120596); (120598, 120628); (120630, 120654); (120656, 120686);
   (120688, 120712); (120714, 120744); (120746, 120770); (120772, 120779);
   (122624, 122633); (122635, 122654); (125184, 125251); (127280, 127305);
   (127312, 127337); (127344, 127369)]%N.

(** Case-ignorable code points above ASCII. *)
Definition ignorable_ranges : list (N * N) :=
  [(168, 168); (173, 173); (175, 175); (180, 180); (183, 184); (688, 879);
   (884, 885); (890, 890); (900, 901); (903, 903); (1155, 1161);
   (1369, 1369); (1375, 1375); (1425, 1469); (1471, 1471); (1473, 1474);
   (1476, 1477); (1479, 1479); (1524, 1524); (1536, 1541); (1552, 1562);
   (1564, 1564); (1600, 1600); (1611, 1631); (1648, 1648); (1750, 1757);
   (1759, 1768); (1770, 1773); (1807, 1807); (1809, 1809); (1840, 1866);
   (1958, 1968); (2027, 2037); (2042, 2042); (2045, 2045); (2070, 2093);
   (2137, 2139); (2184, 2184); (2192, 2193); (2200, 2207); (2249, 2306);
   (2362, 2362); (2364, 2364); (2369, 2376); (2381, 2381); (2385, 2391);
   (2402, 2403); (2417, 2417); (2433, 2433); (2492, 2492); (2497, 2500);
   (2509, 2509); (2530, 2531); (2558, 2558); (2561, 2562); (2620, 2620);
   (2625, 2626); (2631, 2632); (2635, 2637); (2641, 2641); (2672, 2673);
   (2677, 2677); (2689, 2690); (2748, 2748); (2753, 2757); (2759, 2760);
   (2765, 2765); (2786, 2787); (2810, 2815); (2817, 2817); (2876, 2876);
   (2879, 2879); (2881, 2884); (2893, 2893); (2901, 2902); (2914, 2915);
   (2946, 2946); (3008, 3008); (3021, 3021); (3072, 3072); (3076, 3076);
   (3132, 3132); (3134, 3136); (3142, 3144); (3146, 3149); (3157, 3158);
   (3170, 3171); (3201, 3201); (3260, 3260); (3263, 3263); (3270, 3270);
   (3276, 3277); (3298, 3299); (3328, 3329); (3387, 3388); (3393, 3396);
   (3405, 3405); (3426, 3427); (3457, 3457); (3530, 3530); (3538, 3540);
   (3542, 3542); (3633, 3633); (3636, 3642); (3654, 3662); (3761, 3761);
   (3764, 3772); (3782, 3782); (3784, 3789); (3864, 3865); (3893, 3893);
   (3895, 3895); (3897, 3897); (3953, 3966); (3968, 3972); (3974, 3975);
   (3981, 3991); (3993, 4028); (4038, 4038); (4141, 4144); (4146, 4151);
   (4153, 4154); (4157, 4158); (4184, 4185); (4190, 4192); (4209, 4212);
   (4226, 4226); (4229, 4230); (4237, 4237); (4253, 4253); (4348, 4348);
   (4957, 4959); (5906, 5908); (5938, 5939); (5970, 5971); (6002, 6003);
   (6068, 6069); (6071, 6077); (6086, 6086); (6089, 6099); (6103, 6103);
   (6109, 6109); (6155, 6159); (6211, 6211); (6277, 6278); (6313, 6313);
   (6432, 6434); (6439, 6440); (6450, 6450); (6457, 6459); (6679, 6680);
   (6683, 6683); (6742, 6742); (6744, 6750); (6752, 6752); (6754, 6754);
   (6757, 6764); (6771, 6780); (6783, 6783); (6823, 6823); (6832, 6862);
   (6912, 6915); (6964, 6964); (6966, 6970); (6972, 6972); (6978, 6978);
   (7019, 7027); (7040, 7041); (7074, 7077); (7080, 7081); (7083, 7085);
   (7142, 7142); (7144, 7145); (7149, 7149); (7151, 7153); (7212, 7219);
   (7222, 7223); (7288, 7293); (7376, 7378); (7380, 7392); (7394, 7400);
   (7405, 7405); (7412, 7412); (7416, 7417); (7468, 7530); (7544, 7544);
   (7579, 7679); (8125, 8125); (8127, 8129); (8141, 8143); (8157, 8159);
   (8173, 8175); (8189, 8190); (8203, 8207); (8216, 8217); (8228, 8228);
   (8231, 8231); (8234, 8238); (8288, 8292); (8294, 8303); (8305, 8305);
   (8319, 8319); (8336, 8348); (8400, 8432); (11388, 11389); (11503, 11505);
   (11631, 11631); (11647, 11647); (11744, 11775); (11823, 11823);
   (12293, 12293); (12330, 12333); (12337, 12341); (12347, 12347);
   (12441, 12446); (12540, 12542); (40981, 40981); (42232, 42237);
   (42508, 42508); (42607, 42610); (42612, 42621); (42623, 42623);
   (42652, 42655); (42736, 42737); (42752, 42785); (42864, 42864);
   (42888, 42890); (42994, 42996); (43000, 43001); (43010, 43010);
   (43014, 43014); (43019, 43019); (43045, 43046); (43052, 43052);
   (43204, 43205); (43232, 43249); (43263, 43263); (43302, 43309);
   (43335, 43345); (43392, 43394); (43443, 43443); (43446, 43449);
   (43452, 43453); (43471, 43471); (43493, 43494); (43561, 43566);
   (43569, 43570); (43573, 43574); (43587, 43587); (43596, 43596);
   (43632, 43632); (43644, 43644); (43696, 43696); (43698, 43700);
   (43703, 43704); (43710, 43711); (43713, 43713); (43741, 43741);
   (43756, 43757); (43763, 43764); (43766, 43766); (43867, 43871);
   (43881, 43883); (44005, 44005); (44008, 44008); (44013, 44013);
   (64286, 64286); (64434, 64450); (65024, 65039); (65043, 65043);
   (65056, 65071); (65106, 65106); (65109, 65109); (65279, 65279);
   (65287, 65287); (65294, 65294); (65306, 65306); (65342, 65342);
   (65344, 65344); (65392, 65392); (65438, 65439); (65507, 65507);
   (65529, 65531); (66045, 66045); (66272, 66272); (66422, 66426);
   (67456, 67461); (67463, 67504); (67506, 67514); (68097, 68099);
   (68101, 68102); (68108, 68111); (68152, 68154); (68159, 68159);
   (68325, 68326); (68900, 68903); (69291, 69292); (69446, 69456);
   (69506, 69509); (69633, 69633); (69688, 69702); (69744, 69744);
   (69747, 69748); (69759, 69761); (69811, 69814); (69817, 69818);
   (69821, 69821); (69826, 69826); (69837, 69837); (69888, 69890);
   (69927, 69931); (69933, 69940); (70003, 70003); (70016, 70017);
   (70070, 70078); (70089, 70092); (70095, 70095); (70191, 70193);
   (70196, 70196); (70198, 70199); (70206, 70206); (70367, 70367);
   (70371, 70378); (70400, 70401); (70459, 70460); (70464, 70464);
   (70502, 70508); (70512, 70516); (70712, 70719); (70722, 70724);
   (70726, 70726); (70750, 70750); (70835, 70840); (70842, 70842);
   (70847, 70848); (70850, 70851); (71090, 71093); (71100, 71101);
   (71103, 71104); (71132, 71133); (71219, 71226); (71229, 71229);
   (71231, 71232); (71339, 71339); (71341, 71341); (71344, 71349);
   (71351, 71351); (71453, 71455); (71458, 71461); (71463, 71467);
   (71727, 71735); (71737, 71738); (71995, 71996); (71998, 71998);
   (72003, 72003); (72148, 72151); (72154, 72155); (72160, 72160);
   (72193, 72202); (72243, 72248); (72251, 72254); (72263, 72263);
   (72273, 72278); (72281, 72283); (72330, 72342); (72344, 72345);
   (72752, 72758); (72760, 72765); (72767, 72767); (72850, 72871);
   (72874, 72880); (72882, 72883); (72885, 72886); (73009, 73014);
   (73018, 73018); (73020, 73021); (73023, 73029); (73031, 73031);
   (73104, 73105); (73109, 73109); (73111, 73111); (73459, 73460);
   (78896, 78904); (92912, 92916); (92976, 92982); (92992, 92995);
   (94031, 94031); (94095, 94111); (94176, 94177); (94179, 94180);
   (110576, 110579); (110581, 110587); (110589, 110590); (113821, 113822);
   (113824, 113827); (118528, 118573); (118576, 118598); (119143, 119145);
   (119155, 119170); (119173, 119179); (119210, 119213); (119362, 119364);
   (121344, 121398); (121403, 121452); (121461, 121461); (121476, 121476);
   (121499, 121503); (121505, 121519); (122880, 122886); (122888, 122904);
   (122907, 122913); (122915, 122916); (122918, 122922); (123184, 123197);
   (123566, 123566); (123628, 123631); (125136, 125142); (125252, 125259);
   (127995, 127999); (917505, 917505); (917536, 917631); (917760, 917999)]%N.

Definition in_ranges (ranges : list (N * N)) (c : N) : bool :=
  existsb (fun r => ((fst r <=? c) && (c <=? snd r))%N) ranges.

(** [chr(c).isspace()] *)
Definition is_space (c : N) : bool :=
  if (c <? 128)%N
  then (((9 <=? c) && (c <=? 13)) || ((28 <=? c) && (c <=? 32)))%N
  else in_ranges space_ranges c.

(** [chr(c).isdigit()] *)
Definition is_digit (c : N) : bool :=
  if (c <? 128)%N then ((48 <=? c) && (c <=? 57))%N
  else in_ranges digit_ranges c.

(** The value of a decimal digit; [None] for every other code point, the
    digits that are not decimal (such as superscripts) included. *)
Definition decimal_value (c : N) : option N :=
  if (c <? 128)%N
  then (if ((48 <=? c) && (c <=? 57))%N then Some (c - 48)%N else None)
  else match find (fun r => ((fst r <=? c) && (c <=? snd r))%N) decimal_ranges with
       | Some r => Some ((c - fst r) mod 10)%N
       | None => None
       end.

Definition lower_entry (c : Z) (e : Z * Z * Z * Z) : bool :=
  let '(lo, hi, step, _) := e in
  ((lo <=? c) && (c <=? hi) && ((c - lo) mod step =? 0))%Z.

(** The lower-case mapping of one code point, out of context.  Only
    U+0130 maps to more than one code point. *)
Definition lower (c : N) : list N :=
  if (c <? 128)%N
  then [if ((65 <=? c) && (c <=? 90))%N then (c + 32)%N else c]
  else if (c =? 304)%N then [105; 775]%N
  else match find (lower_entry (Z.of_N c)) lower_table with
       | Some (_, _, _, delta) => [Z.to_N (Z.of_N c + delta)]
       | None => [c]
       end.

(** Case-ignorable code points. *)
Definition is_case_ignorable (c : N) : bool :=
  if (c <? 128)%N
  then ((c =? 39) || (c =? 46) || (c =? 58) || (c =? 94) || (c =? 96))%N
  else in_ranges ignorable_ranges c.

(** Cased code points, as far as they are not case-ignorable: the test is
    only ever put to a code point that is not. *)
Definition is_cased (c : N) : bool :=
  if (c <? 128)%N
  then (((65 <=? c) && (c <=? 90)) || ((97 <=? c) && (c <=? 122)))%N
  else in_ranges cased_ranges c.

Fixpoint skip_ignorable (cs : list N) : list N :=
  match cs with
  | [] => []
  | c :: r => if is_case_ignorable c then skip_ignorable r else cs
  end.

(** A capital sigma is final when a cased letter stands before it and
    none after it, case-ignorable code points aside.  [before] is the text
    before it, nearest code point first. *)
Definition final_sigma (before after : list N) : bool :=
  match skip_ignorable before with
  | [] => false
  | c :: _ => is_cased c
  end &&
  match skip_ignorable after with
  | [] => true
  | c :: _ => negb (is_cased c)
  end.

(** The UTF-8 bytes of a code point. *)
Definition encode (c : N) : string :=
  let byte n := ascii_of_N n in
  if (c <? 128)%N then String (byte c) EmptyString
  else if (c <? 2048)%N then
    String (byte (192 + c / 64)%N)
      (String (byte (128 + c mod 64)%N) EmptyString)
  else if (c <? 65536)%N then
    String (byte (224 + c / 4096)%N)
      (String (byte (128 + (c / 64) mod 64)%N)
         (String (byte (128 + c mod 64)%N) EmptyString))
  else
    String (byte (240 + c / 262144)%N)
      (String (byte (128 + (c / 4096) mod 64)%N)
         (String (byte (128 + (c / 64) mod 64)%N)
            (String (byte (128 + c mod 64)%N) EmptyString))).

(** A continuation byte and its six bits. *)
Definition continuation (b : ascii) : option N :=
  let n := N_of_ascii b in
  if ((128 <=? n) && (n <=? 191))%N then Some (n - 128)%N else None.

(** Whether a second byte of six bits [c1] may follow the first byte [n0]
    of a sequence of three or four bytes: no overlong form, no surrogate,
    nothing beyond U+10FFFF. *)
Definition second_fits (n0 c1 : N) : bool :=
  if (n0 =? 224)%N then (32 <=? c1)%N
  else if (n0 =? 237)%N then (c1 <? 32)%N
  else if (n0 =? 240)%N then (16 <=? c1)%N
  else if (n0 =? 244)%N then (c1 <? 16)%N
  else true.

(** The characters of a text: each code point with the bytes that spell
    it.  A byte that is part of no UTF-8 sequence is a character of its
    own, the lone surrogate U+DC80 to U+DCFF that the interpreter puts in
    the place of such a byte when it decodes the command line. *)
Fixpoint chars (s : string) : list (N * string) :=
  match s with
  | EmptyString => []
  | String b0 r0 =>
      let n0 := N_of_ascii b0 in
      let code := if (n0 <? 128)%N then n0 else (56320 + n0)%N in
      let single := (code, String b0 EmptyString) :: chars r0 in
      if (n0 <? 128)%N then single
      else
        match r0 with
        | EmptyString => single
        | String b1 r1 =>
            match continuation b1 with
            | None => single
            | Some c1 =>
                if ((194 <=? n0) && (n0 <=? 223))%N then
                  (((n0 - 192) * 64 + c1)%N,
                   String b0 (String b1 EmptyString)) :: chars r1
                else if negb (second_fits n0 c1) then single
                else
                  match r1 with
                  | EmptyString => single
                  | String b2 r2 =>
                      match continuation b2 with
                      | None => single
                      | Some c2 =>
                          if ((224 <=? n0) && (n0 <=? 239))%N then
                            (((n0 - 224) * 4096 + c1 * 64 + c2)%N,
                             String b0 (String b1 (String b2 EmptyString)))
                            :: chars r2
                          else
                            match r2 with
                            | EmptyString => single
                            | String b3 r3 =>
                                match continuation b3 with
                                | None => single
                                | Some c3 =>
                                    if ((240 <=? n0) && (n0 <=? 244))%N then
                                      (((n0 - 240) * 262144 + c1 * 4096
                                        + c2 * 64 + c3)%N,
                                       String b0 (String b1 (String b2
                                         (String b3 EmptyString))))
                                      :: chars r3
                                    else single
                                end
                            end
                      end
                  end
            end
        end
  end.

(** The code points of a text. *)
Definition code_points (s : string) : list N := map fst (chars s).

End Unicode.

(* ===================================================================== *)
(** * The [str] and [int] built-ins *)
(* ===================================================================== *)

Module Str.

(** Truth value of a string: [bool(s)], false only for the empty one. *)
Definition truthy (s : string) : bool :=
  match s with
  | EmptyString => false
  | String _ _ => true
  end.

Definition is_digit_char (c : ascii) : bool :=
  let n := N_of_ascii c in ((48 <=? n) && (n <=? 57))%N.

Definition digit_value (c : ascii) : Z := Z.of_N (N_of_ascii c) - 48.

Fixpoint all_chars (p : ascii -> bool) (s : string) : bool :=
  match s with
  | EmptyString => true
  | String c r => p c && all_chars p r
  end.


(** [s.isdigit()]: at least one character and every character a digit of
    some script. *)
Definition isdigit (s : string) : bool :=
  truthy s && forallb Unicode.is_digit (Unicode.code_points s).

(** The value of a string of digits, most significant first. *)
Fixpoint digits_value (acc : Z) (s : string) : Z :=
  match s with
  | EmptyString => acc
  | String c r => digits_value (10 * acc + digit_value c) r
  end.

(** White space skipped by [int] around a literal:
    tab, line feed, vertical tab, form feed, carriage return, space. *)
Definition is_int_space (c : ascii) : bool :=
  let n := N_of_ascii c in (((9 <=? n) && (n <=? 13)) || (n =? 32))%N.

Fixpoint lstrip_with (p : ascii -> bool) (s : string) : string :=
  match s with
  | EmptyString => EmptyString
  | String c r => if p c then lstrip_with p r else s
  end.

Fixpoint rstrip_with (p : ascii -> bool) (s : string) : string :=
  match s with
  | EmptyString => EmptyString
  | String c r =>
      match rstrip_with p r with
      | EmptyString => if p c then EmptyString else String c EmptyString
      | r' => String c r'
      end
  end.

Definition strip_with (p : ascii -> bool) (s : string) : string :=
  rstrip_with p (lstrip_with p s).

Fixpoint lstrip_chars (cs : list (N * string)) : list (N * string) :=
  match cs with
  | [] => []
  | c :: r => if Unicode.is_space (fst c) then lstrip_chars r else cs
  end.

Fixpoint rstrip_chars (cs : list (N * string)) : list (N * string) :=
  match cs with
  | [] => []
  | c :: r =>
      match rstrip_chars r with
      | [] => if Unicode.is_space (fst c) then [] else [c]
      | r' => c :: r'
      end
  end.

Definition spell (cs : list (N * string)) : string :=
  String.concat EmptyString (map snd cs).

(** [s.strip()]: the text without the white space at its two ends. *)
Definition strip (s : string) : string :=
  spell (rstrip_chars (lstrip_chars (Unicode.chars s))).

(** Digits of an [int] literal after the first one: single underscores
    may separate digits, and the literal may not end in one. *)
Fixpoint int_digits (after_underscore : bool) (acc : Z) (s : string)
  : option Z :=
  match s with
  | EmptyString => if after_underscore then None else Some acc
  | String c r =>
      if is_digit_char c then int_digits false (10 * acc + digit_value c) r
      else if Ascii.eqb c "_"
           then (if after_underscore then None else int_digits true acc r)
           else None
  end.

Definition int_unsigned (s : string) : option Z :=
  match s with
  | EmptyString => None
  | String c r => if is_digit_char c then int_digits false (digit_value c) r
                  else None
  end.

Definition invalid_literal : exn :=
  mk_exn ValueError "invalid literal for int() with base 10".

(** [int] on ASCII text, base ten: optional surrounding white space, an
    optional sign, then digits; [ValueError] for anything else. *)
Definition int_ascii (s : string) : result Z :=
  let body := strip_with is_int_space s in
  let signed :=
    match body with
    | EmptyString => None
    | String c r =>
        if Ascii.eqb c "+" then int_unsigned r
        else if Ascii.eqb c "-" then option_map Z.opp (int_unsigned r)
        else int_unsigned body
    end in
  match signed with
  | Some v => Ok v
  | None => Raise invalid_literal
  end.

(** What [int] makes of a text before it reads it: ASCII stays, other
    white space becomes a space, other decimal digits become ASCII digits,
    and the text is cut at the first code point that is none of these,
    with a question mark in its place. *)
Fixpoint to_ascii (cs : list N) : string :=
  match cs with
  | [] => EmptyString
  | c :: r =>
      if (c <? 127)%N then String (ascii_of_N c) (to_ascii r)
      else if Unicode.is_space c then String " " (to_ascii r)
      else match Unicode.decimal_value c with
           | Some v => String (ascii_of_N (48 + v)%N) (to_ascii r)
           | None => "?"
           end
  end.

(** [int(s)] in base ten. *)
Definition int (s : string) : result Z :=
  int_ascii (to_ascii (Unicode.code_points s)).

(** [s.split(sep)] for a one-character separator: always at least one
    field, empty fields kept. *)
Fixpoint split (sep : ascii) (s : string) : list string :=
  match s with
  | EmptyString => [EmptyString]
  | String c r =>
      if Ascii.eqb c sep then EmptyString :: split sep r
      else match split sep r with
           | f :: fs => String c f :: fs
           | [] => [String c EmptyString]
           end
  end.

(** The bytes a character lowers to: its own when nothing changes. *)
Definition lower_char (before : list N) (c : N * string) (after : list N)
  : string :=
  if (fst c =? 931)%N then
    Unicode.encode (if Unicode.final_sigma before after then 962 else 963)%N
  else
    match Unicode.lower (fst c) with
    | [c'] => if (c' =? fst c)%N then snd c else Unicode.encode c'
    | cs => String.concat EmptyString (map Unicode.encode cs)
    end.

Fixpoint lower_chars (before : list N) (cs : list (N * string)) : string :=
  match cs with
  | [] => EmptyString
  | c :: r =>
      lower_char before c (map fst r) ++ lower_chars (fst c :: before) r
  end.

(** [s.lower()] *)
Definition lower (s : string) : string := lower_chars [] (Unicode.chars s).

(** [needle in hay]: substring test. *)
Fixpoint contains (needle hay : string) : bool :=
  String.prefix needle hay ||
  match hay with
  | EmptyString => false
  | String _ r => contains needle r
  end.

(** Decimal digits of a natural number, least significant first; the fuel
    bounds the number of digits. *)
Fixpoint rev_digits (fuel : nat) (n : N) : list ascii :=
  match fuel with
  | O => []
  | S f =>
      ascii_of_N (48 + n mod 10) ::
      (if (n <? 10)%N then [] else rev_digits f (n / 10)%N)
  end.

Definition str_of_N (n : N) : string :=
  string_of_list_ascii (rev (rev_digits (S (N.to_nat (N.log2 n))) n)).

(** [str(z)] for an integer, as an f-string prints it. *)
Definition str_of_int (z : Z) : string :=
  if z <? 0 then String "-" (str_of_N (Z.to_N (- z))) else str_of_N (Z.to_N z).

End Str.

(* ===================================================================== *)
(** * [datetime]: points in time and their differences *)
(* ===================================================================== *)

Module Datetime.

(** A naive local [datetime], counted in whole seconds since the epoch.
    The local zone is taken to be UTC; the microseconds of
    [datetime.now()] never reach [days] or [seconds] of a difference with
    a whole-second time and are left out. *)
Definition datetime : Set := Z.

(** [datetime.fromtimestamp(ts)] on a 64-bit host: outside [time_t] it
    raises [OverflowError], where the C library cannot express the year
    [OSError], and outside the years 1..9999 [ValueError]. *)
Definition fromtimestamp (ts : Z) : result datetime :=
  if (ts <? - 2 ^ 63) || (2 ^ 63 <=? ts) then
    Raise (mk_exn OverflowError "timestamp out of range for platform time_t")
  else if (ts <? -67768040609740800) || (67768036191676799 <? ts) then
    Raise (mk_exn OSError "[Errno 75] Value too large for defined data type")
  else if (ts <? -62135510400) || (253402300799 <? ts) then
    Raise (mk_exn ValueError "year is out of range")
  else Ok ts.

(** A normalised [timedelta]: [0 <= seconds < 86400], [days] of any sign. *)
Record timedelta : Set := mk_timedelta { days : Z; seconds : Z }.

(** [a - b] on datetimes. *)
Definition sub (a b : datetime) : timedelta :=
  mk_timedelta ((a - b) / 86400) ((a - b) mod 86400).

End Datetime.

(* ===================================================================== *)
(** * [json]: values and [json.dumps] *)
(* ===================================================================== *)

Module Json.

(** The values the script serialises.  A [dict] keeps its keys in
    insertion order. *)
#[local] Set Warnings "-register-all".
Inductive json : Set :=
| JStr (s : string)
| JBool (b : bool)
| JList (items : list json)
| JDict (fields : list (string * json)).

(** [d.get(key)] on a value that is a dict. *)
Fixpoint assoc (key : string) (fields : list (string * json)) : option json :=
  match fields with
  | [] => None
  | (k, v) :: rest => if String.eqb k key then Some v else assoc key rest
  end.

Definition get (key : string) (d : json) : option json :=
  match d with
  | JDict fields => assoc key fields
  | _ => None
  end.

Definition hex_digit (n : N) : ascii :=
  if (n <? 10)%N then ascii_of_N (48 + n) else ascii_of_N (87 + n).

(** One character inside a JSON string with [ensure_ascii=False]: the
    quote, the backslash and the control characters are escaped. *)
Definition escape_char (c : ascii) : string :=
  let n := N_of_ascii c in
  if (n =? 34)%N then "\" ++ String c EmptyString
  else if (n =? 92)%N then "\\"
  else if (n =? 10)%N then "\n"
  else if (n =? 13)%N then "\r"
  else if (n =? 9)%N then "\t"
  else if (n =? 8)%N then "\b"
  else if (n =? 12)%N then "\f"
  else if (n <? 32)%N then
    "\u00" ++ String (hex_digit (n / 16)) (String (hex_digit (n mod 16)) EmptyString)
  else String c EmptyString.

Fixpoint escape (s : string) : string :=
  match s with
  | EmptyString => EmptyString
  | String c r => escape_char c ++ escape r
  end.

Definition quote : string := String (ascii_of_N 34) EmptyString.

Definition dumps_str (s : string) : string := quote ++ escape s ++ quote.

(** [json.dumps(v, ensure_ascii=False)] with the default separators. *)
Fixpoint dumps (v : json) : string :=
  match v with
  | JStr s => dumps_str s
  | JBool true => "true"
  | JBool false => "false"
  | JList items =>
      "[" ++ String.concat ", " (map dumps items) ++ "]"
  | JDict fields =>
      "{" ++ String.concat ", "
               (map (fun kv => dumps_str (fst kv) ++ ": " ++ dumps (snd kv))
                    fields)
          ++ "}"
  end.

End Json.

Import Json.

(* ===================================================================== *)
(** * [sorted] *)
(* ===================================================================== *)

Module Builtins.

Section Sorted.

Context {A K : Type}.
Variable lt : K -> K -> bool.
Variable key : A -> K.

(** [x] stood before every element of [l] in the input: it goes in front
    of the first element whose key is not smaller than its own. *)
Fixpoint insert (x : A) (l : list A) : list A :=
  match l with
  | [] => [x]
  | y :: r => if lt (key y) (key x) then y :: insert x r else x :: y :: r
  end.

(** [sorted(l, key=key)]: a stable sort that compares keys with [<] only.
    Every stable sort returns the same list; this one inserts from the
    right. *)
Fixpoint sorted (l : list A) : list A :=
  match l with
  | [] => []
  | x :: r => insert x (sorted r)
  end.

End Sorted.

End Builtins.

(* ===================================================================== *)
(** * The script *)
(* ===================================================================== *)

(** [INVALID_SESSION_CHARS = {".", ":", " ", "\n", "\t"}] *)
Definition INVALID_SESSION_CHARS : list string :=
  ["."; ":"; " "; String (ascii_of_N 10) EmptyString;
   String (ascii_of_N 9) EmptyString].

(** [class Session] *)
Record Session : Set := mk_Session {
  name : string;
  windows : Z;
  created_timestamp : Z;
  is_attached : bool;
  activity_timestamp : Z
}.

(** [format_time_ago(timestamp)], with the clock reading [now] that
    [datetime.now()] returns passed in. *)
Definition format_time_ago (now : Datetime.datetime) (timestamp : Z)
  : result string :=
  try_except
    (t <- Datetime.fromtimestamp timestamp ;;
     let delta := Datetime.sub now t in
     if Datetime.days delta >? 0 then
       Ok (Str.str_of_int (Datetime.days delta) ++ "d ago")
     else
       let hours := Datetime.seconds delta / 3600 in
       if hours >? 0 then Ok (Str.str_of_int hours ++ "h ago")
       else
         let minutes := Datetime.seconds delta / 60 in
         if minutes >? 0 then Ok (Str.str_of_int minutes ++ "m ago")
         else Ok "just now")
    [([ValueError; OSError; OverflowError], fun _ => Ok "unknown")].

(** [parse_session_line(line)]; [None] is Python's [None]. *)
Definition parse_session_line (line : string) : result (option Session) :=
  if negb (Str.truthy line) then Ok None
  else
    let parts := Str.split "|" line in
    if (List.length parts <? 5)%nat then Ok None
    else
      try_except
        (p0 <- getitem parts 0 ;;
         p1 <- getitem parts 1 ;;
         w <- (if Str.isdigit p1 then (p1' <- getitem parts 1 ;; Str.int p1')
               else Ok 1) ;;
         p2 <- getitem parts 2 ;;
         c <- (if Str.isdigit p2 then (p2' <- getitem parts 2 ;; Str.int p2')
               else Ok 0) ;;
         p3 <- getitem parts 3 ;;
         p4 <- getitem parts 4 ;;
         a <- (if Str.isdigit p4 then (p4' <- getitem parts 4 ;; Str.int p4')
               else (p2' <- getitem parts 2 ;; Str.int p2')) ;;
         Ok (Some (mk_Session p0 w c (String.eqb p3 "1") a)))
        [([ValueError; IndexError], fun _ => Ok None)].

(** [Session.status_emoji] *)
Definition status_emoji (self : Session) : string :=
  if is_attached self then "🟢 attached" else "⚪ detached".

(** [Session.created_ago] *)
Definition created_ago (now : Datetime.datetime) (self : Session)
  : result string :=
  format_time_ago now (created_timestamp self).

(** [Session.activity_ago] *)
Definition activity_ago (now : Datetime.datetime) (self : Session)
  : result string :=
  format_time_ago now (activity_timestamp self).

(** [Session.subtitle] *)
Definition subtitle (now : Datetime.datetime) (self : Session)
  : result string :=
  created <- created_ago now self ;;
  active <- activity_ago now self ;;
  Ok (status_emoji self ++ " • " ++ Str.str_of_int (windows self)
      ++ " windows • created " ++ created ++ " • active " ++ active).

(** [Session.to_alfred_item] *)
Definition to_alfred_item (now : Datetime.datetime) (self : Session)
  : result json :=
  sub <- subtitle now self ;;
  Ok (JDict
    [("title", JStr (name self));
     ("subtitle", JStr sub);
     ("arg", JStr (name self));
     ("mods", JDict
        [("cmd", JDict
            [("subtitle", JStr ("Delete session " ++ name self));
             ("arg", JStr ("delete:" ++ name self))]);
         ("ctrl", JDict
            [("subtitle",
              JStr (if is_attached self
                    then "Detach from session " ++ name self
                    else "Session " ++ name self ++ " already detached"));
             ("arg", JStr ("detach:" ++ name self));
             ("valid", JBool (is_attached self))])])]).

(* --------------------------------------------------------------------- *)
(** ** The session source *)

Module Subprocess.

(** What launching a command does on the host. *)
Inductive outcome : Set :=
| NotFound                                  (* no such executable *)
| Fails (e : exn)                           (* any other failure to run it *)
| Exits (returncode : Z) (stdout : string)  (* ran to completion *)
| Hangs.                                    (* still running at the timeout *)

Definition host : Set := list string -> outcome.

(** [subprocess.run(cmd, capture_output=True, text=True, check=True,
    timeout=5).stdout] *)
Definition run (h : host) (cmd : list string) : result string :=
  match h cmd with
  | NotFound =>
      Raise (mk_exn FileNotFoundError "[Errno 2] No such file or directory")
  | Fails e => Raise e
  | Exits rc out =>
      if rc =? 0 then Ok out
      else Raise (mk_exn CalledProcessError
                         "Command returned non-zero exit status")
  | Hangs => Raise (mk_exn TimeoutExpired "Command timed out after 5 seconds")
  end.

End Subprocess.

Definition TMUX_FORMAT : string :=
  "#{session_name}|#{session_windows}|#{session_created}|#{session_attached}|#{session_activity}".

(** The [for line in ...] loop of [get_tmux_sessions]; [sessions] is the
    list appended to. *)
Fixpoint collect_sessions (lines : list string) (sessions : list Session)
  : result (list Session) :=
  match lines with
  | [] => Ok sessions
  | line :: rest =>
      session <- parse_session_line line ;;
      collect_sessions rest
        match session with
        | Some s => sessions ++ [s]
        | None => sessions
        end
  end.

Definition newline : ascii := ascii_of_N 10.

(** [get_tmux_sessions()] *)
Definition get_tmux_sessions (h : Subprocess.host) : result (list Session) :=
  try_except
    (stdout <- Subprocess.run h ["tmux"; "list-sessions"; "-F"; TMUX_FORMAT] ;;
     if negb (Str.truthy (Str.strip stdout)) then Ok []
     else collect_sessions (Str.split newline (Str.strip stdout)) [])
    [([CalledProcessError], fun _ => Ok []);
     ([TimeoutExpired], fun _ => Ok []);
     ([FileNotFoundError], fun e => Raise e)].

(* --------------------------------------------------------------------- *)
(** ** Name validation and the fallback prompts *)

(** [is_valid_session_name(name)] *)
Definition is_valid_session_name (name : string) : bool :=
  Str.truthy name &&
  negb (existsb (fun char => Str.contains char name) INVALID_SESSION_CHARS).

(** [create_session_prompt(query)] *)
Definition create_session_prompt (query : string) : json :=
  if is_valid_session_name query then
    JDict
      [("title", JStr ("Create new session " ++ quote ++ query ++ quote));
       ("subtitle", JStr "Press Enter to create this tmux session");
       ("arg", JStr ("create:" ++ query));
       ("icon", JDict [("path", JStr "icon.png")])]
  else
    JDict
      [("title", JStr ("Invalid session name " ++ quote ++ query ++ quote));
       ("subtitle", JStr "Session names cannot contain spaces, dots, or colons");
       ("valid", JBool false)].

(** [create_empty_state_prompt()] *)
Definition create_empty_state_prompt : json :=
  JDict
    [("title", JStr "No tmux sessions found");
     ("subtitle", JStr "Start typing to create a new session");
     ("valid", JBool false)].

(* --------------------------------------------------------------------- *)
(** ** Filtering and ranking *)

(** The sort key [(not s.is_attached, -s.activity_timestamp,
    s.name.lower())]. *)
Definition sort_key : Set := (bool * Z * string)%type.

Definition session_key (s : Session) : sort_key :=
  (negb (is_attached s), - activity_timestamp s, Str.lower (name s)).

(** Tuples compare by their first differing component: [False < True],
    integers by value, strings by code point. *)
Definition key_compare (a b : sort_key) : comparison :=
  let '(a1, a2, a3) := a in
  let '(b1, b2, b3) := b in
  match Bool.compare a1 b1 with
  | Eq => match Z.compare a2 b2 with
          | Eq => String.compare a3 b3
          | c => c
          end
  | c => c
  end.

Definition key_lt (a b : sort_key) : bool :=
  match key_compare a b with
  | Lt => true
  | _ => false
  end.

(** The comprehension's test: [not query or query.lower() in s.name.lower()]. *)
Definition matches_query (query : string) (s : Session) : bool :=
  negb (Str.truthy query) || Str.contains (Str.lower query) (Str.lower (name s)).

(** [filter_and_sort_sessions(sessions, query)] *)
Definition filter_and_sort_sessions (sessions : list Session) (query : string)
  : list Session :=
  let filtered := filter (matches_query query) sessions in
  Builtins.sorted key_lt session_key filtered.

(* --------------------------------------------------------------------- *)
(** ** The entry point *)

Module IO.

(** Standard output: the texts printed so far, oldest first. *)
Definition stdout : Set := list string.

(** A computation that may print and may raise. *)
Definition io (A : Type) : Type := stdout -> result A * stdout.

Definition lift {A : Type} (m : result A) : io A := fun out => (m, out).

Definition bind {A B : Type} (m : io A) (k : A -> io B) : io B :=
  fun out =>
    match m out with
    | (Ok a, out') => k a out'
    | (Raise e, out') => (Raise e, out')
    end.

(** [print(text)] *)
Definition print (text : string) : io unit :=
  fun out => (Ok tt, (out ++ [text])%list).

Definition clause (A : Type) : Type := (list exn_class * (exn -> io A))%type.

Fixpoint dispatch {A : Type} (clauses : list (clause A)) (e : exn) : io A :=
  match clauses with
  | [] => lift (Raise e)
  | (classes, handler) :: rest =>
      if catches classes e then handler e else dispatch rest e
  end.

(** The [try] statement around printing code: what the body printed before
    it raised stays printed. *)
Definition try_except {A : Type} (body : io A) (clauses : list (clause A))
  : io A :=
  fun out =>
    match body out with
    | (Ok a, out') => (Ok a, out')
    | (Raise e, out') => dispatch clauses e out'
    end.

(** Running a program from an empty standard output. *)
Definition run {A : Type} (m : io A) : result A * stdout := m [].

End IO.

Notation "x <~ m ;; k" := (IO.bind m (fun x => k))
  (at level 61, m at next level, right associativity) : py_scope.

(** [[s.to_alfred_item() for s in filtered_sessions]] *)
Fixpoint to_alfred_items (now : Datetime.datetime) (sessions : list Session)
  : result (list json) :=
  match sessions with
  | [] => Ok []
  | s :: rest =>
      item <- to_alfred_item now s ;;
      items <- to_alfred_items now rest ;;
      Ok (item :: items)
  end.

Definition is_empty {A : Type} (l : list A) : bool :=
  match l with
  | [] => true
  | _ :: _ => false
  end.

(** [main()], given [sys.argv], the clock and the host. *)
Definition main (argv : list string) (now : Datetime.datetime)
  (h : Subprocess.host) : IO.io unit :=
  let query :=
    if (1 <? List.length argv)%nat then Str.strip (nth 1 argv EmptyString)
    else EmptyString in
  IO.try_except
    (sessions <~ IO.lift (get_tmux_sessions h) ;;
     let filtered_sessions := filter_and_sort_sessions sessions query in
     items <~ IO.lift (to_alfred_items now filtered_sessions) ;;
     let items :=
       if is_empty items then
         if Str.truthy query then [create_session_prompt query]
         else [create_empty_state_prompt]
       else items in
     IO.print (dumps (JDict [("items", JList items)])))
    [([FileNotFoundError],
      fun _ =>
        IO.print (dumps (JDict [("items", JList
          [JDict [("title", JStr "tmux not found");
                  ("subtitle", JStr "Install tmux: brew install tmux");
                  ("valid", JBool false)]])])));
     ([Exception],
      fun e =>
        IO.print (dumps (JDict [("items", JList
          [JDict [("title", JStr "Unexpected error");
                  ("subtitle", JStr (exn_str e));
                  ("valid", JBool false)]])])))].

(* ===================================================================== *)
(** * Vocabulary of the specification *)
(* ===================================================================== *)

(** The query [main] reads from [sys.argv]. *)
Definition argv_query (argv : list string) : string :=
  if (1 <? List.length argv)%nat then Str.strip (nth 1 argv EmptyString)
  else EmptyString.

(** The command [get_tmux_sessions] launches. *)
Definition tmux_command : list string :=
  ["tmux"; "list-sessions"; "-F"; TMUX_FORMAT].

(** The sessions of the lines that parse, in line order. *)
Definition parsed_sessions (lines : list string) : list Session :=
  flat_map (fun line => match parse_session_line line with
                        | Ok (Some s) => [s]
                        | _ => []
                        end) lines.

(** The three conversions [parse_session_line] attempts, on the second,
    the third and the fifth field. *)
Definition windows_field (p1 : string) : result Z :=
  if Str.isdigit p1 then Str.int p1 else Ok 1.

Definition created_field (p2 : string) : result Z :=
  if Str.isdigit p2 then Str.int p2 else Ok 0.

Definition activity_field (p2 p4 : string) : result Z :=
  if Str.isdigit p4 then Str.int p4 else Str.int p2.

(** The [try] block of [parse_session_line] once the five leading fields
    are known. *)
Definition session_of_fields (p0 p1 p2 p3 p4 : string)
  : result (option Session) :=
  try_except
    (w <- (if Str.isdigit p1 then Str.int p1 else Ok 1) ;;
     c <- (if Str.isdigit p2 then Str.int p2 else Ok 0) ;;
     a <- (if Str.isdigit p4 then Str.int p4 else Str.int p2) ;;
     Ok (Some (mk_Session p0 w c (String.eqb p3 "1") a)))
    [([ValueError; IndexError], fun _ => Ok None)].

(** The age the specification speaks of: whole units elapsed from
    [timestamp] to [now], largest unit first. *)
Definition relative_age (now timestamp : Z) : string :=
  let elapsed := now - timestamp in
  if 1 <=? elapsed / 86400 then Str.str_of_int (elapsed / 86400) ++ "d ago"
  else if 1 <=? elapsed / 3600 then Str.str_of_int (elapsed / 3600) ++ "h ago"
  else if 1 <=? elapsed / 60 then Str.str_of_int (elapsed / 60) ++ "m ago"
  else "just now".

(** The forbidden characters: space, tab, newline, period, colon. *)
Definition forbidden_chars : list ascii :=
  [" "; ascii_of_N 9; ascii_of_N 10; "."; ":"]%char.


(** Two keys that compare equal. *)
Definition key_eqb (a b : sort_key) : bool :=
  match key_compare a b with
  | Eq => true
  | _ => false
  end.

(** [key_le a b]: [a] may stand before [b] in sorted output. *)
Definition key_le (a b : sort_key) : Prop := key_lt b a = false.

(** The launcher's reading of an item or of a modifier: actionable unless
    its [valid] field says [false]. *)
Definition enabled (d : json) : bool :=
  match get "valid" d with
  | Some (JBool b) => b
  | _ => true
  end.

(** The text of an items document. *)
Definition items_document (items : list json) : string :=
  dumps (JDict [("items", JList items)]).

(** The subtitle of a session whose two ages are known. *)
Definition subtitle_text (s : Session) (created active : string) : string :=
  status_emoji s ++ " • " ++ Str.str_of_int (windows s)
  ++ " windows • created " ++ created ++ " • active " ++ active.

(** A host on which every command prints [out] and exits with status 0. *)
Definition host_printing (out : string) : Subprocess.host :=
  fun _ => Subprocess.Exits 0 out.

(** A host on which tmux is installed but may not be executed. *)
Definition host_without_permission : Subprocess.host :=
  fun _ => Subprocess.Fails
             (mk_exn PermissionError "[Errno 13] Permission denied: 'tmux'").

Definition sample_attached : Session :=
  mk_Session "main" 2 1700000000 true 1700000100.

Definition sample_detached : Session :=
  mk_Session "Mail" 1 1700000000 false 1700009000.

(** The alphabet [Str.to_ascii] writes when it is fed digits. *)
Definition plain_char (c : ascii) : bool :=
  Str.is_digit_char c || Ascii.eqb c " " || Ascii.eqb c "?".

(** The white space of ASCII: tab to carriage return, and the separators
    0x1c to 0x1f with the space. *)
Definition is_ascii_space (c : ascii) : bool :=
  let n := N_of_ascii c in
  (((9 <=? n) && (n <=? 13)) || ((28 <=? n) && (n <=? 32)))%N.

(** Characters that are all white space. *)
Definition spaces (cs : list (N * string)) : bool :=
  forallb (fun c => Unicode.is_space (fst c)) cs.



(** [sep] does not occur in [s]. *)
Definition free_of (sep : ascii) (s : string) : Prop :=
  ~ In sep (list_ascii_of_string s).

(* ===================================================================== *)
(** * Sample runs *)
(* ===================================================================== *)

Example split_fields :
  Str.split "|" "a||b|" = ["a"; EmptyString; "b"; EmptyString].
Proof. reflexivity. Qed.

Example split_empty : Str.split "|" EmptyString = [EmptyString].
Proof. reflexivity. Qed.

Example int_signed : Str.int " -5" = Ok (-5) /\ Str.int "1_000" = Ok 1000.
Proof. split; reflexivity. Qed.

Example int_rejects :
  map Str.int ["abc"; EmptyString; "- 5"; "1__0"; "_1"; "1_"; "+"]
  = repeat (Raise Str.invalid_literal) 7.
Proof. reflexivity. Qed.

Example strip_both : Str.strip "  a b
" = "a b".
Proof. reflexivity. Qed.

(** The built-ins beyond ASCII. *)
Example lower_samples :
  map Str.lower ["École"; "ÉCOLE"; "İstanbul"; "ΑΣΑ"; "ΑΣ"; "Σ"; "ΑΣ."; "Straße"; "ǅ"; "Σα"; "tmux-Dev_2"]
  = ["école"; "école"; "i̇stanbul"; "ασα"; "ας"; "σ"; "ας."; "straße"; "ǆ"; "σα"; "tmux-dev_2"].
Proof. reflexivity. Qed.

Example isdigit_samples :
  map Str.isdigit ["12"; "²"; "٣"; "١٢"; "-5"; "1 2"; EmptyString]
  = [true; true; true; true; false; false; false].
Proof. reflexivity. Qed.

Example int_unicode :
  Str.int "٣" = Ok 3 /\ Str.int "١٢" = Ok 12 /\ Str.int "٣_٤" = Ok 34 /\
  Str.int "  7 " = Ok 7 /\
  Str.int "²" = Raise Str.invalid_literal /\
  Str.int "1 2" = Raise Str.invalid_literal.
Proof. repeat split. Qed.

Example strip_unicode :
  Str.strip "  7 " = "7" /\ Str.strip " 　" = EmptyString.
Proof. split; reflexivity. Qed.

Example str_of_int_samples :
  map Str.str_of_int [0; 7; 10; 23; 1700000000; -5; 99; 100; 1023; 1024]
  = ["0"; "7"; "10"; "23"; "1700000000"; "-5"; "99"; "100"; "1023"; "1024"].
Proof. reflexivity. Qed.

Example parse_work :
  parse_session_line "work|3|1700000000|1|1700003600"
  = Ok (Some (mk_Session "work" 3 1700000000 true 1700003600)).
Proof. reflexivity. Qed.

Example parse_short : parse_session_line "work|3|1700000000|1" = Ok None.
Proof. reflexivity. Qed.

Example format_samples :
  map (format_time_ago 1700000000)
      [1700000000; 1699999941; 1699999940; 1699996400; 1699913600;
       1500000000; 253402300800]
  = map Ok ["just now"; "just now"; "1m ago"; "1h ago"; "1d ago";
            "2314d ago"; "unknown"].
Proof. reflexivity. Qed.

Example escape_samples :
  Json.escape "a\b" = "a\\b" /\
  Json.escape (String (ascii_of_N 9) (String (ascii_of_N 31) "é"))
  = "\t\u001fé".
Proof. split; reflexivity. Qed.

Example dumps_sample :
  dumps (JDict [("items", JList [JDict [("valid", JBool false)]])])
  = "{" ++ quote ++ "items" ++ quote ++ ": [{" ++ quote ++ "valid" ++ quote
    ++ ": false}]}".
Proof. reflexivity. Qed.

(** An attached session ranks first however old its activity. *)
Example attached_ranks_first :
  get_tmux_sessions
    (host_printing "Mail|1|1700000000|0|1700009000
main|2|1700000000|1|1700000100
")
  = Ok [sample_detached; sample_attached] /\
  filter_and_sort_sessions [sample_detached; sample_attached] EmptyString
  = [sample_attached; sample_detached].
Proof. split; reflexivity. Qed.

(* ===================================================================== *)
(** * Facts about the built-ins *)
(* ===================================================================== *)

Section StrFacts.

Import Str.




Lemma all_chars_impl (p q : ascii -> bool) s :
  (forall c, p c = true -> q c = true) ->
  all_chars p s = true -> all_chars q s = true.
Proof.
  intros Hpq. induction s as [|c r IH]; simpl; [easy|].
  intros H. apply andb_true_iff in H as [Hc Hr].
  now rewrite (Hpq _ Hc), (IH Hr).
Qed.











(** [int] raises nothing but its [ValueError]. *)
Lemma int_ascii_raises s e : int_ascii s = Raise e -> e = invalid_literal.
Proof.
  unfold int_ascii.
  destruct (match strip_with is_int_space s with
            | EmptyString => _ | String _ _ => _ end); congruence.
Qed.

Lemma to_ascii_plain cs :
  forallb Unicode.is_digit cs = true -> all_chars plain_char (to_ascii cs) = true.
Proof.
  induction cs as [|c r IH]; [reflexivity|].
  cbn [forallb]. intros H. apply andb_true_iff in H as [Hc Hr].
  cbn [to_ascii]. destruct (N.ltb_spec c 127) as [Hlt|Hge].
  - cbn [all_chars]. rewrite (IH Hr), andb_true_r.
    unfold Unicode.is_digit in Hc.
    destruct (N.ltb_spec c 128); [|lia].
    unfold plain_char, is_digit_char. rewrite N_ascii_embedding by lia.
    now rewrite Hc.
  - destruct (Unicode.is_space c); [cbn [all_chars]; now rewrite (IH Hr)|].
    destruct (Unicode.decimal_value c) as [v|] eqn:Ev; [|reflexivity].
    cbn [all_chars]. rewrite (IH Hr), andb_true_r.
    assert (Hv : (v < 10)%N).
    { unfold Unicode.decimal_value in Ev.
      destruct (N.ltb_spec c 128) as [H128|H128].
      - assert (c = 127%N) by lia. subst c. discriminate Ev.
      - destruct (find _ _); [|discriminate]. injection Ev as <-.
        apply N.mod_lt. lia. }
    unfold plain_char, is_digit_char. rewrite N_ascii_embedding by lia.
    replace ((48 <=? 48 + v)%N && (48 + v <=? 57)%N) with true; [reflexivity|].
    symmetry. apply andb_true_iff. split; apply N.leb_le; lia.
Qed.

Lemma all_chars_lstrip_with p q s :
  all_chars q s = true -> all_chars q (lstrip_with p s) = true.
Proof.
  induction s as [|c r IH]; [reflexivity|].
  intros H. cbn [lstrip_with]. destruct (p c); [|exact H].
  cbn [all_chars] in H. apply andb_true_iff in H as [_ H]. now apply IH.
Qed.

Lemma all_chars_rstrip_with p q s :
  all_chars q s = true -> all_chars q (rstrip_with p s) = true.
Proof.
  induction s as [|c r IH]; [reflexivity|].
  cbn [all_chars]. intros H. apply andb_true_iff in H as [Hc Hr].
  cbn [rstrip_with]. specialize (IH Hr).
  destruct (rstrip_with p r) as [|d t].
  - destruct (p c); [reflexivity|]. cbn [all_chars]. now rewrite Hc.
  - cbn [all_chars] in *. now rewrite Hc, IH.
Qed.

Lemma int_digits_nonneg b acc s v :
  0 <= acc -> int_digits b acc s = Some v -> 0 <= v.
Proof.
  revert b acc. induction s as [|c r IH]; cbn [int_digits]; intros b acc Hacc H.
  - destruct b; [discriminate|]. now injection H as <-.
  - destruct (is_digit_char c) eqn:Hc.
    + apply (IH false (10 * acc + digit_value c)); [|exact H].
      unfold is_digit_char in Hc. apply andb_true_iff in Hc as [H1 _].
      apply N.leb_le in H1. unfold digit_value. lia.
    + destruct (Ascii.eqb c "_"); [|discriminate].
      destruct b; [discriminate|]. now apply (IH true acc).
Qed.

Lemma int_ascii_plain_nonneg t v :
  all_chars plain_char t = true -> int_ascii t = Ok v -> 0 <= v.
Proof.
  intros Hplain. unfold int_ascii.
  assert (Hbody : all_chars plain_char (strip_with is_int_space t) = true)
    by (unfold strip_with; now apply all_chars_rstrip_with, all_chars_lstrip_with).
  destruct (strip_with is_int_space t) as [|c r]; [discriminate|].
  cbn [all_chars] in Hbody. apply andb_true_iff in Hbody as [Hc _].
  destruct (Ascii.eqb_spec c "+") as [->|_]; [discriminate|].
  destruct (Ascii.eqb_spec c "-") as [->|_]; [discriminate|].
  cbn [int_unsigned]. destruct (is_digit_char c) eqn:Hd; [|discriminate].
  destruct (int_digits false (digit_value c) r) as [w|] eqn:E; [|discriminate].
  intros [= <-]. apply (int_digits_nonneg false (digit_value c) r w); [|exact E].
  unfold is_digit_char in Hd. apply andb_true_iff in Hd as [H1 _].
  apply N.leb_le in H1. unfold digit_value. lia.
Qed.

(** What passes [isdigit] holds no sign: [int] makes nothing negative of
    it. *)
Lemma int_of_isdigit_nonneg s v :
  isdigit s = true -> int s = Ok v -> 0 <= v.
Proof.
  unfold isdigit, int. intros H. apply andb_true_iff in H as [_ H].
  apply int_ascii_plain_nonneg. now apply to_ascii_plain.
Qed.

Lemma int_raises s e : int s = Raise e -> e = invalid_literal.
Proof. unfold int. apply int_ascii_raises. Qed.

(** [split] never returns the empty list, and returns one field exactly
    when the separator does not occur. *)
Lemma split_nonempty sep s : split sep s <> [].
Proof.
  destruct s as [|c r]; simpl; [discriminate|].
  destruct (Ascii.eqb c sep); [discriminate|].
  destruct (split sep r); discriminate.
Qed.

Lemma truthy_of_split sep s f g fs : split sep s = f :: g :: fs -> truthy s = true.
Proof. destruct s; [discriminate | reflexivity]. Qed.

(** Substring search, against its specification. *)
Lemma prefix_iff n h :
  String.prefix n h = true <-> exists post, h = n ++ post.
Proof.
  revert h. induction n as [|c n IH]; intros h; simpl.
  - split; [intros _; now exists h | now destruct h].
  - destruct h as [|d h]; simpl.
    + split; [discriminate | intros [post H]; discriminate].
    + destruct (ascii_dec c d) as [->|Hne].
      * rewrite IH. split; intros [post H]; exists post; [now subst | now injection H].
      * split; [discriminate|]. intros [post H]. injection H as H1 _. now subst.
Qed.

Lemma contains_iff n h :
  contains n h = true <-> exists pre post, h = pre ++ n ++ post.
Proof.
  induction h as [|d h IH].
  - cbn [contains]. rewrite orb_false_r, prefix_iff. split.
    + intros [post H]. now exists EmptyString, post.
    + intros [pre [post H]]. destruct pre; [now exists post|discriminate].
  - cbn [contains]. rewrite orb_true_iff, prefix_iff, IH. split.
    + intros [[post H]|[pre [post H]]].
      * now exists EmptyString, post.
      * exists (String d pre), post. simpl. now rewrite H.
    + intros [pre [post H]]. destruct pre as [|e pre]; simpl in H.
      * left. now exists post.
      * right. injection H as _ H. now exists pre, post.
Qed.

Lemma contains_append n a b :
  contains n a = true -> contains n (a ++ b) = true.
Proof.
  rewrite !contains_iff. intros [pre [post ->]].
  exists pre, (post ++ b).
  clear. induction pre as [|c pre IH]; simpl.
  - induction n as [|c n IHn]; simpl; [reflexivity | now rewrite IHn].
  - now rewrite IH.
Qed.

(** Looking for a single character is list membership. *)
Lemma contains_char c s :
  contains (String c EmptyString) s = true <-> In c (list_ascii_of_string s).
Proof.
  induction s as [|d s IH].
  - simpl. split; [discriminate | easy].
  - cbn [contains list_ascii_of_string In]. rewrite orb_true_iff, IH.
    assert (Hp : String.prefix (String c EmptyString) (String d s) = true <-> d = c).
    { simpl. destruct (ascii_dec c d) as [->|Hne].
      - destruct s; easy.
      - split; [discriminate | intros ->; contradiction]. }
    rewrite Hp. reflexivity.
Qed.

End StrFacts.

(* --------------------------------------------------------------------- *)
(** ** The order on sort keys *)

Section KeyOrder.

Lemma ascii_compare_refl c : Ascii.compare c c = Eq.
Proof. unfold Ascii.compare. apply N.compare_refl. Qed.

Lemma ascii_compare_lt_trans a b c :
  Ascii.compare a b = Lt -> Ascii.compare b c = Lt -> Ascii.compare a c = Lt.
Proof.
  unfold Ascii.compare. rewrite !N.compare_lt_iff. lia.
Qed.

Lemma string_compare_refl s : String.compare s s = Eq.
Proof.
  induction s as [|c s IH]; simpl; [reflexivity|].
  now rewrite ascii_compare_refl.
Qed.

Lemma string_compare_lt_trans a b c :
  String.compare a b = Lt -> String.compare b c = Lt -> String.compare a c = Lt.
Proof.
  revert b c. induction a as [|x a IH]; intros [|y b] [|z c]; simpl; try easy.
  destruct (Ascii.compare x y) eqn:Hxy; try discriminate;
    destruct (Ascii.compare y z) eqn:Hyz; try discriminate; intros H1 H2.
  - apply Ascii.compare_eq_iff in Hxy, Hyz. subst.
    rewrite ascii_compare_refl. now apply (IH b c).
  - apply Ascii.compare_eq_iff in Hxy. subst. now rewrite Hyz.
  - apply Ascii.compare_eq_iff in Hyz. subst. now rewrite Hxy.
  - now rewrite (ascii_compare_lt_trans _ _ _ Hxy Hyz).
Qed.

Lemma key_compare_eq a b : key_compare a b = Eq -> a = b.
Proof.
  destruct a as [[a1 a2] a3], b as [[b1 b2] b3]. simpl.
  destruct a1, b1; simpl; try discriminate;
    destruct (Z.compare_spec a2 b2); try discriminate;
    intros Hs; apply String.compare_eq_iff in Hs; now subst.
Qed.

Lemma key_compare_refl a : key_compare a a = Eq.
Proof.
  destruct a as [[a1 a2] a3]. simpl.
  destruct a1; simpl; now rewrite Z.compare_refl, string_compare_refl.
Qed.

Lemma key_compare_antisym a b : key_compare b a = CompOpp (key_compare a b).
Proof.
  destruct a as [[a1 a2] a3], b as [[b1 b2] b3]. simpl.
  destruct a1, b1; simpl; try reflexivity;
    rewrite (Z.compare_antisym a2 b2);
    destruct (a2 ?= b2); simpl; try reflexivity;
    apply String.compare_antisym.
Qed.

Lemma key_compare_lt_trans a b c :
  key_compare a b = Lt -> key_compare b c = Lt -> key_compare a c = Lt.
Proof.
  destruct a as [[a1 a2] a3], b as [[b1 b2] b3], c as [[c1 c2] c3]. simpl.
  destruct a1, b1, c1; simpl; try easy;
    destruct (Z.compare_spec a2 b2); try discriminate;
    destruct (Z.compare_spec b2 c2); try discriminate;
    destruct (Z.compare_spec a2 c2); try lia; try reflexivity;
    try apply string_compare_lt_trans.
Qed.

Lemma key_le_iff a b : key_le a b <-> key_compare a b <> Gt.
Proof.
  unfold key_le, key_lt. rewrite (key_compare_antisym a b).
  destruct (key_compare a b); simpl; split; congruence.
Qed.

Lemma key_le_trans a b c : key_le a b -> key_le b c -> key_le a c.
Proof.
  rewrite !key_le_iff. intros Hab Hbc.
  destruct (key_compare a b) eqn:E1; [| |congruence].
  - apply key_compare_eq in E1. now subst.
  - destruct (key_compare b c) eqn:E2; [| |congruence].
    + apply key_compare_eq in E2. subst. now rewrite E1.
    + now rewrite (key_compare_lt_trans _ _ _ E1 E2).
Qed.

Lemma key_lt_le a b : key_lt a b = true -> key_le a b.
Proof.
  unfold key_le, key_lt. rewrite (key_compare_antisym a b).
  destruct (key_compare a b); simpl; congruence.
Qed.

Lemma key_lt_irrefl a : key_lt a a = false.
Proof. unfold key_lt. now rewrite key_compare_refl. Qed.

(** What [key_le] says about two sessions, component by component. *)
Lemma key_le_sessions a b :
  key_le (session_key a) (session_key b) ->
  (is_attached b = true -> is_attached a = true) /\
  (is_attached a = is_attached b ->
   activity_timestamp b <= activity_timestamp a) /\
  (is_attached a = is_attached b ->
   activity_timestamp a = activity_timestamp b ->
   String.leb (Str.lower (name a)) (Str.lower (name b)) = true).
Proof.
  rewrite key_le_iff. unfold session_key, key_compare, String.leb.
  destruct (is_attached a), (is_attached b); simpl; try congruence;
    (destruct (Z.compare_spec (- activity_timestamp a) (- activity_timestamp b));
     intros Hc; repeat split; intros; try lia; try congruence;
     destruct (String.compare (Str.lower (name a)) (Str.lower (name b)));
     congruence).
Qed.

End KeyOrder.

(* --------------------------------------------------------------------- *)
(** ** [sorted] returns a sorted, stable rearrangement *)

Section SortedFacts.

Context {A K : Type}.
Variable lt : K -> K -> bool.
Variable key : A -> K.

Let le (a b : K) : Prop := lt b a = false.
Let R (x y : A) : Prop := le (key x) (key y).

Hypothesis le_trans : forall a b c, le a b -> le b c -> le a c.
Hypothesis lt_le : forall a b, lt a b = true -> le a b.
Hypothesis lt_irrefl : forall a, lt a a = false.

Lemma insert_perm x l : Permutation (Builtins.insert lt key x l) (x :: l).
Proof.
  induction l as [|y r IH]; simpl; [apply Permutation_refl|].
  destruct (lt (key y) (key x)); [|apply Permutation_refl].
  eapply perm_trans; [apply perm_skip, IH | apply perm_swap].
Qed.

Lemma sorted_perm l : Permutation (Builtins.sorted lt key l) l.
Proof.
  induction l as [|x r IH]; simpl; [apply perm_nil|].
  eapply perm_trans; [apply insert_perm | now apply perm_skip].
Qed.

Lemma insert_sorted x l :
  StronglySorted R l -> StronglySorted R (Builtins.insert lt key x l).
Proof.
  induction 1 as [|y r Hr IH Hy]; simpl.
  - constructor; constructor.
  - destruct (lt (key y) (key x)) eqn:E.
    + constructor; [exact IH|].
      apply Forall_forall. intros z Hz.
      apply (Permutation_in _ (insert_perm x r)) in Hz.
      destruct Hz as [<-|Hz]; [now apply lt_le|].
      rewrite Forall_forall in Hy. now apply Hy.
    + constructor; [now constructor|].
      constructor; [exact E|].
      apply Forall_forall. intros z Hz. rewrite Forall_forall in Hy.
      apply (le_trans _ (key y)); [exact E | now apply Hy].
Qed.

Lemma sorted_sorted l : StronglySorted R (Builtins.sorted lt key l).
Proof.
  induction l as [|x r IH]; simpl; [constructor | now apply insert_sorted].
Qed.

(** Stability: the elements of any one key keep their input order. *)
Lemma insert_stable (p : A -> bool) x l :
  (forall y, p x = true -> p y = true -> lt (key y) (key x) = false) ->
  filter p (Builtins.insert lt key x l) = filter p (x :: l).
Proof.
  intros Hp. induction l as [|y r IH]; [reflexivity|].
  cbn [Builtins.insert]. destruct (lt (key y) (key x)) eqn:E; [|reflexivity].
  cbn [filter] in *. rewrite IH.
  destruct (p x) eqn:Hx, (p y) eqn:Hy; try reflexivity.
  rewrite (Hp y eq_refl Hy) in E. discriminate.
Qed.

Lemma sorted_stable (p : A -> bool) l :
  (forall x y, p x = true -> p y = true -> key x = key y) ->
  filter p (Builtins.sorted lt key l) = filter p l.
Proof.
  intros Hp. induction l as [|x r IH]; [reflexivity|].
  cbn [Builtins.sorted]. rewrite insert_stable.
  - cbn [filter]. now rewrite IH.
  - intros y Hx Hy. rewrite (Hp y x Hy Hx). apply lt_irrefl.
Qed.

(** What makes the model of [sorted] safe: a sorted, stable rearrangement
    of a list is unique, so any stable sort computes this very list. *)
Variable eqk : K -> K -> bool.
Hypothesis eqk_spec : forall a b, eqk a b = true <-> a = b.
Hypothesis le_antisym : forall a b, le a b -> le b a -> a = b.

Lemma stable_sort_unique l1 l2 :
  Permutation l1 l2 ->
  StronglySorted R l1 -> StronglySorted R l2 ->
  (forall k, filter (fun x => eqk (key x) k) l1
             = filter (fun x => eqk (key x) k) l2) ->
  l1 = l2.
Proof.
  revert l2. induction l1 as [|x r1 IH]; intros l2 Hperm Hs1 Hs2 Hst.
  - now apply Permutation_nil in Hperm.
  - destruct l2 as [|y r2];
      [apply Permutation_sym, Permutation_nil in Hperm; discriminate|].
    apply StronglySorted_inv in Hs1 as [Hs1 Hx].
    apply StronglySorted_inv in Hs2 as [Hs2 Hy].
    rewrite Forall_forall in Hx, Hy.
    assert (Hle_refl : forall z, le (key z) (key z)) by (intros z; apply lt_irrefl).
    assert (Hxy : key x = key y).
    { apply le_antisym.
      - assert (Hin : In y (x :: r1))
          by (apply (Permutation_in _ (Permutation_sym Hperm)); now left).
        destruct Hin as [->|Hin]; [apply Hle_refl | now apply Hx].
      - assert (Hin : In x (y :: r2))
          by (apply (Permutation_in _ Hperm); now left).
        destruct Hin as [->|Hin]; [apply Hle_refl | now apply Hy]. }
    assert (Heq : x = y).
    { specialize (Hst (key x)). cbn [filter] in Hst.
      rewrite <- Hxy in Hst.
      rewrite (proj2 (eqk_spec (key x) (key x)) eq_refl) in Hst.
      now injection Hst. }
    subst y. f_equal. apply IH; try assumption.
    + now apply Permutation_cons_inv in Hperm.
    + intros k. specialize (Hst k). cbn [filter] in Hst.
      destruct (eqk (key x) k); [now injection Hst | exact Hst].
Qed.

End SortedFacts.


(* ===================================================================== *)
(** * Parsing one line *)
(* ===================================================================== *)

Section ParseFacts.

Lemma parse_session_line_fields line p0 p1 p2 p3 p4 rest :
  Str.split "|" line = p0 :: p1 :: p2 :: p3 :: p4 :: rest ->
  parse_session_line line = session_of_fields p0 p1 p2 p3 p4.
Proof.
  intros Hs. unfold parse_session_line.
  rewrite (truthy_of_split _ _ _ _ _ Hs), Hs. reflexivity.
Qed.

Lemma parse_session_line_short line :
  (List.length (Str.split "|" line) < 5)%nat ->
  parse_session_line line = Ok None.
Proof.
  intros H. unfold parse_session_line.
  destruct (Str.truthy line); [|reflexivity]. simpl.
  apply Nat.ltb_lt in H. now rewrite H.
Qed.

(** The fields' contribution, spelled out: a session when the three
    conversions succeed, and a dropped line when one of them raises. *)
Lemma session_of_fields_eq p0 p1 p2 p3 p4 :
  session_of_fields p0 p1 p2 p3 p4 =
  match windows_field p1, created_field p2, activity_field p2 p4 with
  | Ok w, Ok c, Ok a => Ok (Some (mk_Session p0 w c (String.eqb p3 "1") a))
  | _, _, _ => Ok None
  end.
Proof.
  unfold session_of_fields.
  fold (windows_field p1) (created_field p2) (activity_field p2 p4).
  assert (Hraise : forall (f : result Z) e,
            f = Raise e ->
            (f = windows_field p1 \/ f = created_field p2 \/
             f = activity_field p2 p4) ->
            e = Str.invalid_literal).
  { intros f e He Hf. subst f.
    unfold windows_field, created_field, activity_field in Hf.
    destruct Hf as [Hf|[Hf|Hf]];
      repeat match type of Hf with
             | context [if ?b then _ else _] => destruct b
             end;
      try discriminate; symmetry in Hf; eapply int_raises; eassumption. }
  destruct (windows_field p1) as [w|e] eqn:Ew; cbn [bind].
  - destruct (created_field p2) as [c|e] eqn:Ec; cbn [bind].
    + destruct (activity_field p2 p4) as [a|e] eqn:Ea; cbn [bind];
        [reflexivity|].
      rewrite (Hraise _ e eq_refl (or_intror (or_intror eq_refl))). reflexivity.
    + rewrite (Hraise _ e eq_refl (or_intror (or_introl eq_refl))). reflexivity.
  - rewrite (Hraise _ e eq_refl (or_introl eq_refl)). reflexivity.
Qed.

(** [parse_session_line] never raises. *)
Lemma parse_session_line_total line : exists r, parse_session_line line = Ok r.
Proof.
  unfold parse_session_line.
  destruct (Str.truthy line); [|now eexists]. simpl.
  destruct (Str.split "|" line) as [|p0 [|p1 [|p2 [|p3 [|p4 rest]]]]];
    try (now eexists).
  change (exists r, session_of_fields p0 p1 p2 p3 p4 = Ok r).
  rewrite session_of_fields_eq.
  destruct (windows_field p1), (created_field p2), (activity_field p2 p4);
    now eexists.
Qed.

(** A returned session, read off the three conversions. *)
Lemma parse_session_line_some line p0 p1 p2 p3 p4 rest s :
  Str.split "|" line = p0 :: p1 :: p2 :: p3 :: p4 :: rest ->
  parse_session_line line = Ok (Some s) ->
  windows_field p1 = Ok (windows s) /\
  created_field p2 = Ok (created_timestamp s) /\
  activity_field p2 p4 = Ok (activity_timestamp s) /\
  name s = p0 /\ is_attached s = String.eqb p3 "1".
Proof.
  intros Hs. rewrite (parse_session_line_fields _ _ _ _ _ _ _ Hs).
  rewrite session_of_fields_eq.
  destruct (windows_field p1) as [w|]; [|discriminate].
  destruct (created_field p2) as [c|]; [|discriminate].
  destruct (activity_field p2 p4) as [a|]; [|discriminate].
  intros [= <-]. now repeat split.
Qed.

(** A line of five or more fields is dropped exactly when one of the
    three conversions raises. *)
Lemma parse_session_line_rejects_iff line p0 p1 p2 p3 p4 rest :
  Str.split "|" line = p0 :: p1 :: p2 :: p3 :: p4 :: rest ->
  parse_session_line line = Ok None <->
  (exists e, windows_field p1 = Raise e) \/
  (exists e, created_field p2 = Raise e) \/
  (exists e, activity_field p2 p4 = Raise e).
Proof.
  intros Hs. rewrite (parse_session_line_fields _ _ _ _ _ _ _ Hs).
  rewrite session_of_fields_eq.
  destruct (windows_field p1) as [w|e1].
  - destruct (created_field p2) as [c|e2].
    + destruct (activity_field p2 p4) as [a|e3].
      * split; [discriminate|].
        intros [[e H]|[[e H]|[e H]]]; discriminate.
      * split; [intros _|reflexivity]. right. right. now exists e3.
    + split; [intros _|reflexivity]. right. left. now exists e2.
  - split; [intros _|reflexivity]. left. now exists e1.
Qed.

(** The fields after the fifth play no part. *)
Lemma parse_session_line_ignores_extra_fields l1 l2 fields r1 r2 :
  List.length fields = 5%nat ->
  Str.split "|" l1 = (fields ++ r1)%list ->
  Str.split "|" l2 = (fields ++ r2)%list ->
  parse_session_line l1 = parse_session_line l2.
Proof.
  intros Hlen H1 H2.
  destruct fields as [|p0 [|p1 [|p2 [|p3 [|p4 [|]]]]]]; try discriminate.
  simpl in H1, H2.
  now rewrite (parse_session_line_fields _ _ _ _ _ _ _ H1),
              (parse_session_line_fields _ _ _ _ _ _ _ H2).
Qed.

(** The first field is the text before the first separator. *)
Lemma split_head sep s f g fs :
  Str.split sep s = f :: g :: fs ->
  exists tail, s = f ++ String sep tail /\ ~ In sep (list_ascii_of_string f).
Proof.
  revert f. induction s as [|c r IH]; intros f H; [discriminate|].
  simpl in H. destruct (Ascii.eqb_spec c sep) as [->|Hne].
  - injection H as <- H. exists r. split; [reflexivity | easy].
  - destruct (Str.split sep r) as [|f' fs'] eqn:E; [discriminate|].
    injection H as <- H. subst fs'.
    destruct (IH f' eq_refl) as [tail [-> Hnot]].
    exists tail. split; [reflexivity|].
    simpl. intros [Hc|Hin]; [congruence | contradiction].
Qed.

Lemma parse_session_line_name line s :
  parse_session_line line = Ok (Some s) ->
  exists tail, line = name s ++ String "|" tail /\
               ~ In "|"%char (list_ascii_of_string (name s)).
Proof.
  intros H.
  destruct (Str.split "|" line) as [|p0 [|p1 [|p2 [|p3 [|p4 rest]]]]] eqn:Hs;
    try (rewrite parse_session_line_short in H by (rewrite Hs; simpl; lia);
         discriminate).
  destruct (parse_session_line_some _ _ _ _ _ _ _ _ Hs H) as (_ & _ & _ & -> & _).
  eapply split_head; eauto.
Qed.

End ParseFacts.

(** C1 (the code departs from it).  The claim: a line of five fields is
    never dropped, a malformed [activityAt] falling back to the resolved
    [createdAt].  Here the third and fifth fields are both malformed; the
    fallback converts the raw third field, [int] raises [ValueError], and
    the line is dropped. *)
Theorem parse_session_line_drops_malformed_timestamps :
  Str.split "|" "dev|2|abc|1|xyz" = ["dev"; "2"; "abc"; "1"; "xyz"] /\
  parse_session_line "dev|2|abc|1|xyz" = Ok None /\
  parse_session_line "dev|2|-5|1|xyz"
  = Ok (Some (mk_Session "dev" 2 0 true (-5))).
Proof. repeat split. Qed.




(** C10 (the code departs from it).  A session named [a|b|c|d|e] makes a
    line of more than five fields; its third and fifth fields are pieces
    of the name, and the line is dropped. *)
Theorem parse_session_line_drops_name_with_separators :
  Str.split "|" "a|b|c|d|e|1|1700000000|0|1700000000"
  = ["a"; "b"; "c"; "d"; "e"; "1"; "1700000000"; "0"; "1700000000"] /\
  parse_session_line "a|b|c|d|e|1|1700000000|0|1700000000" = Ok None.
Proof. split; reflexivity. Qed.

(* ===================================================================== *)
(** * Relative ages *)
(* ===================================================================== *)

Section TimeFacts.

Lemma fromtimestamp_cases ts :
  Datetime.fromtimestamp ts = Ok ts \/
  exists e, Datetime.fromtimestamp ts = Raise e /\
            catches [ValueError; OSError; OverflowError] e = true.
Proof.
  unfold Datetime.fromtimestamp.
  repeat match goal with
         | |- context [if ?b then _ else _] => destruct b
         end;
    (now left) || (right; eexists; split; reflexivity).
Qed.

(** [format_time_ago] never raises: a timestamp [fromtimestamp] refuses
    gives ["unknown"]. *)
Lemma format_time_ago_unknown now ts e :
  Datetime.fromtimestamp ts = Raise e ->
  format_time_ago now ts = Ok "unknown".
Proof.
  intros H. unfold format_time_ago. rewrite H. cbn [bind try_except dispatch].
  destruct (fromtimestamp_cases ts) as [H'|[e' [H' Hc]]]; [congruence|].
  rewrite H in H'. injection H' as ->. now rewrite Hc.
Qed.

Lemma format_time_ago_total now ts : exists s, format_time_ago now ts = Ok s.
Proof.
  destruct (fromtimestamp_cases ts) as [H|[e [H _]]].
  - unfold format_time_ago. rewrite H. cbn [bind try_except].
    repeat match goal with
           | |- context [if ?b then _ else _] => destruct b
           end; eexists; reflexivity.
  - rewrite (format_time_ago_unknown now ts e H). now eexists.
Qed.

(** The result has one of the five shapes. *)
Lemma format_time_ago_shape now ts s :
  format_time_ago now ts = Ok s ->
  s = "unknown" \/ s = "just now" \/
  exists n, 1 <= n /\
    (s = Str.str_of_int n ++ "d ago" \/ s = Str.str_of_int n ++ "h ago" \/
     s = Str.str_of_int n ++ "m ago").
Proof.
  destruct (fromtimestamp_cases ts) as [H|[e [H _]]].
  - unfold format_time_ago. rewrite H. cbn [bind try_except Datetime.sub
      Datetime.days Datetime.seconds].
    destruct (Z.gtb_spec ((now - ts) / 86400) 0);
      [intros [= <-]; right; right; eexists; split; [|left; reflexivity]; lia|].
    destruct (Z.gtb_spec ((now - ts) mod 86400 / 3600) 0);
      [intros [= <-]; right; right; eexists; split;
       [|right; left; reflexivity]; lia|].
    destruct (Z.gtb_spec ((now - ts) mod 86400 / 60) 0);
      [intros [= <-]; right; right; eexists; split;
       [|right; right; reflexivity]; lia|].
    intros [= <-]. now right; left.
  - rewrite (format_time_ago_unknown now ts e H). intros [= <-]. now left.
Qed.

(** For a timestamp that is a valid time not after [now], the result is
    the age in the largest unit that has elapsed at least once. *)
Lemma format_time_ago_past now ts :
  Datetime.fromtimestamp ts = Ok ts -> ts <= now ->
  format_time_ago now ts = Ok (relative_age now ts).
Proof.
  intros H Hle. unfold format_time_ago, relative_age. rewrite H.
  cbn [bind try_except Datetime.sub Datetime.days Datetime.seconds].
  set (e := now - ts). assert (He : 0 <= e) by (unfold e; lia).
  destruct (Z.gtb_spec (e / 86400) 0) as [Hd|Hd];
    destruct (Z.leb_spec 1 (e / 86400)) as [Hd'|Hd']; try lia; [reflexivity|].
  assert (Hsmall : e < 86400).
  { destruct (Z_lt_ge_dec e 86400) as [|Hge]; [assumption|].
    assert (1 <= e / 86400) by (apply Z.div_le_lower_bound; lia). lia. }
  rewrite (Z.mod_small e 86400) by lia.
  destruct (Z.gtb_spec (e / 3600) 0); destruct (Z.leb_spec 1 (e / 3600));
    try lia; [reflexivity|].
  destruct (Z.gtb_spec (e / 60) 0); destruct (Z.leb_spec 1 (e / 60));
    try lia; reflexivity.
Qed.

End TimeFacts.

(** C6 (the code departs from it).  The claim: the unit chosen is the
    largest one whose value relative to now is at least 1, and "just now"
    when none is.  For a timestamp one minute after [now] no unit has
    elapsed even once, yet the difference normalises to -1 day and 86340
    seconds and the answer is "23h ago". *)
Theorem format_time_ago_future_timestamp :
  Datetime.fromtimestamp 1700000060 = Ok 1700000060 /\
  Datetime.sub 1700000000 1700000060 = Datetime.mk_timedelta (-1) 86340 /\
  format_time_ago 1700000000 1700000060 = Ok "23h ago" /\
  relative_age 1700000000 1700000060 = "just now".
Proof. repeat split. Qed.

(* ===================================================================== *)
(** * Name validation *)
(* ===================================================================== *)

(** C7.  [is_valid_session_name], a total function to [bool], answers
    [true] exactly for the non-empty names that hold no space, tab,
    newline, period or colon; it answers [false] for the empty name. *)
Theorem is_valid_session_name_iff :
  (forall name : string,
     is_valid_session_name name = true <->
     name <> EmptyString /\
     forall c, In c forbidden_chars -> ~ In c (list_ascii_of_string name)) /\
  is_valid_session_name EmptyString = false.
Proof.
  split; [|reflexivity]. intros nm.
  unfold is_valid_session_name, INVALID_SESSION_CHARS, forbidden_chars.
  cbn [existsb]. rewrite andb_true_iff, negb_true_iff, orb_false_r.
  rewrite !orb_false_iff, <- !not_true_iff_false, !contains_char.
  split.
  - intros [Hne (Hdot & Hcolon & Hsp & Hnl & Htab)]. split.
    + now destruct nm.
    + intros c [<-|[<-|[<-|[<-|[<-|[]]]]]]; assumption.
  - intros [Hne Hall]. split; [now destruct nm|].
    repeat split; apply Hall; simpl; tauto.
Qed.

Lemma is_valid_session_name_iff_witness :
  is_valid_session_name "newproj" = true /\
  is_valid_session_name "My Project" = false.
Proof.
  split.
  - apply (proj1 is_valid_session_name_iff "newproj"). split; [discriminate|].
    intros c [<-|[<-|[<-|[<-|[<-|[]]]]]]; vm_compute;
      intuition discriminate.
  - apply not_true_iff_false. intros H.
    apply (proj1 is_valid_session_name_iff "My Project") in H.
    destruct H as [_ H]. apply (H " "%char); vm_compute; tauto.
Defined.

(* ===================================================================== *)
(** * Filtering and ranking *)
(* ===================================================================== *)

Section RankFacts.


Lemma filter_and_sort_sessions_perm sessions query :
  Permutation (filter_and_sort_sessions sessions query)
              (filter (matches_query query) sessions).
Proof. apply sorted_perm. Qed.

Lemma filter_and_sort_sessions_sorted sessions query :
  StronglySorted (fun a b => key_le (session_key a) (session_key b))
                 (filter_and_sort_sessions sessions query).
Proof.
  apply (sorted_sorted key_lt session_key).
  - intros a b c. apply key_le_trans.
  - apply key_lt_le.
Qed.

Lemma key_eqb_eq a b : key_eqb a b = true <-> a = b.
Proof.
  unfold key_eqb. split.
  - destruct (key_compare a b) eqn:E; try discriminate.
    intros _. now apply key_compare_eq.
  - intros ->. now rewrite key_compare_refl.
Qed.

(** Sessions with one and the same key come out in their input order. *)
Lemma filter_and_sort_sessions_stable sessions query k :
  filter (fun s => key_eqb (session_key s) k)
         (filter_and_sort_sessions sessions query)
  = filter (fun s => key_eqb (session_key s) k)
           (filter (matches_query query) sessions).
Proof.
  apply (sorted_stable key_lt session_key).
  - apply key_lt_irrefl.
  - intros x y Hx Hy. apply key_eqb_eq in Hx, Hy. congruence.
Qed.

Lemma key_le_antisym a b : key_le a b -> key_le b a -> a = b.
Proof.
  rewrite !key_le_iff, (key_compare_antisym a b).
  destruct (key_compare a b) eqn:E; simpl; try congruence.
  intros _ _. now apply key_compare_eq.
Qed.

(** The result is the only sorted, stable rearrangement of the matching
    sessions: whatever stable algorithm [sorted] runs, it returns this. *)
Lemma filter_and_sort_sessions_unique sessions query out :
  Permutation out (filter (matches_query query) sessions) ->
  StronglySorted (fun a b => key_le (session_key a) (session_key b)) out ->
  (forall k, filter (fun s => key_eqb (session_key s) k) out
             = filter (fun s => key_eqb (session_key s) k)
                      (filter (matches_query query) sessions)) ->
  out = filter_and_sort_sessions sessions query.
Proof.
  intros Hperm Hsorted Hstable.
  apply (stable_sort_unique key_lt session_key key_lt_irrefl key_eqb key_eqb_eq
           key_le_antisym); [| assumption | apply filter_and_sort_sessions_sorted |].
  - eapply perm_trans; [exact Hperm|].
    apply Permutation_sym, filter_and_sort_sessions_perm.
  - intros k. rewrite Hstable. symmetry.
    apply filter_and_sort_sessions_stable.
Qed.

End RankFacts.




(* ===================================================================== *)
(** * The session source *)
(* ===================================================================== *)

Section SourceFacts.

Lemma collect_sessions_eq lines sessions :
  collect_sessions lines sessions = Ok (sessions ++ parsed_sessions lines)%list.
Proof.
  revert sessions. induction lines as [|line rest IH]; intros sessions; simpl.
  - now rewrite app_nil_r.
  - destruct (parse_session_line_total line) as [r ->]. cbn [bind].
    rewrite IH. destruct r as [s|]; [|reflexivity].
    now rewrite <- app_assoc.
Qed.

Lemma exn_class_eqb_eq c d : exn_class_eqb c d = true <-> c = d.
Proof. destruct c, d; simpl; split; congruence. Qed.

Lemma catches_leaf c e :
  (forall d, issubclass d c = exn_class_eqb d c) ->
  catches [c] e = true <-> exn_cls e = c.
Proof.
  intros Hleaf. unfold catches. cbn [existsb].
  now rewrite orb_false_r, Hleaf, exn_class_eqb_eq.
Qed.

Lemma catches_CalledProcessError e :
  catches [CalledProcessError] e = true <-> exn_cls e = CalledProcessError.
Proof. apply catches_leaf. now intros []. Qed.

Lemma catches_TimeoutExpired e :
  catches [TimeoutExpired] e = true <-> exn_cls e = TimeoutExpired.
Proof. apply catches_leaf. now intros []. Qed.

Lemma catches_FileNotFoundError e :
  catches [FileNotFoundError] e = true <-> exn_cls e = FileNotFoundError.
Proof. apply catches_leaf. now intros []. Qed.

Lemma catches_Exception e : catches [Exception] e = true.
Proof. unfold catches. cbn [existsb]. now destruct (exn_cls e). Qed.

(** [get_tmux_sessions] in one equation. *)
Lemma get_tmux_sessions_eq h :
  get_tmux_sessions h =
  match Subprocess.run h tmux_command with
  | Ok out => Ok (parsed_sessions (Str.split newline (Str.strip out)))
  | Raise e =>
      if catches [CalledProcessError] e || catches [TimeoutExpired] e
      then Ok [] else Raise e
  end.
Proof.
  unfold get_tmux_sessions. fold tmux_command.
  destruct (Subprocess.run h tmux_command) as [out|e]; cbn [bind try_except].
  - destruct (Str.strip out) eqn:E; [reflexivity|].
    cbn [Str.truthy negb]. now rewrite collect_sessions_eq.
  - cbn [dispatch].
    destruct (catches [CalledProcessError] e); [reflexivity|].
    destruct (catches [TimeoutExpired] e); [reflexivity|].
    now destruct (catches [FileNotFoundError] e).
Qed.

End SourceFacts.

(** C4, as stated, fails in its "only if": tmux is present on this host
    but launching it raises [PermissionError], and [get_tmux_sessions]
    lets that failure through. *)
Lemma get_tmux_sessions_raises_without_permission :
  host_without_permission tmux_command <> Subprocess.NotFound /\
  get_tmux_sessions host_without_permission
  = Raise (mk_exn PermissionError "[Errno 13] Permission denied: 'tmux'").
Proof. split; [discriminate | reflexivity]. Qed.

(** C4 (amended).  [get_tmux_sessions] raises exactly the failures of the
    launch other than a nonzero exit status and a timeout; an absent
    executable is one of them.  A nonzero exit status and a timeout each
    give the empty list.  Otherwise the result holds one session for each
    line of the stripped output that parses, in line order. *)
Theorem get_tmux_sessions_spec h :
  (forall e, get_tmux_sessions h = Raise e <->
             Subprocess.run h tmux_command = Raise e /\
             exn_cls e <> CalledProcessError /\ exn_cls e <> TimeoutExpired) /\
  (h tmux_command = Subprocess.NotFound ->
   exists e, get_tmux_sessions h = Raise e /\ exn_cls e = FileNotFoundError) /\
  (forall rc out, h tmux_command = Subprocess.Exits rc out -> rc <> 0 ->
                  get_tmux_sessions h = Ok []) /\
  (h tmux_command = Subprocess.Hangs -> get_tmux_sessions h = Ok []) /\
  (forall out, h tmux_command = Subprocess.Exits 0 out ->
               get_tmux_sessions h
               = Ok (parsed_sessions (Str.split newline (Str.strip out)))).
Proof.
  rewrite get_tmux_sessions_eq. split; [|split; [|split; [|split]]].
  - intros e. destruct (Subprocess.run h tmux_command) as [out|e'].
    + split; [discriminate | intros [? _]; discriminate].
    + destruct (catches [CalledProcessError] e') eqn:E1;
        [|destruct (catches [TimeoutExpired] e') eqn:E2]; cbn [orb].
      * apply catches_CalledProcessError in E1.
        split; [discriminate | intros ([= <-] & ? & _); contradiction].
      * apply catches_TimeoutExpired in E2.
        split; [discriminate | intros ([= <-] & _ & ?); contradiction].
      * split; [intros [= <-] | now intros ([= <-] & _)].
        split; [reflexivity|].
        rewrite <- catches_CalledProcessError, <- catches_TimeoutExpired.
        split; congruence.
  - intros H. unfold Subprocess.run. rewrite H. now eexists.
  - intros rc out H Hrc. unfold Subprocess.run. rewrite H.
    apply Z.eqb_neq in Hrc. now rewrite Hrc.
  - intros H. unfold Subprocess.run. now rewrite H.
  - intros out H. unfold Subprocess.run. now rewrite H.
Qed.

Lemma get_tmux_sessions_spec_witness :
  get_tmux_sessions (host_printing "work|3|1700000000|1|1700003600")
  = Ok [mk_Session "work" 3 1700000000 true 1700003600] /\
  get_tmux_sessions (fun _ => Subprocess.Exits 1 "no server running") = Ok [] /\
  get_tmux_sessions (fun _ => Subprocess.Hangs) = Ok [].
Proof.
  split; [|split].
  - apply (proj2 (proj2 (proj2 (proj2 (get_tmux_sessions_spec
             (host_printing "work|3|1700000000|1|1700003600")))))
             "work|3|1700000000|1|1700003600").
    reflexivity.
  - apply (proj1 (proj2 (proj2 (get_tmux_sessions_spec
             (fun _ => Subprocess.Exits 1 "no server running"))))
             1 "no server running"); [reflexivity | lia].
  - apply (proj1 (proj2 (proj2 (proj2 (get_tmux_sessions_spec
             (fun _ => Subprocess.Hangs)))))).
    reflexivity.
Defined.

(* ===================================================================== *)
(** * Output items and the entry point *)
(* ===================================================================== *)

Section MainFacts.

Lemma to_alfred_item_total now s :
  exists created active,
    format_time_ago now (created_timestamp s) = Ok created /\
    format_time_ago now (activity_timestamp s) = Ok active /\
    to_alfred_item now s =
    Ok (JDict
      [("title", JStr (name s));
       ("subtitle", JStr (subtitle_text s created active));
       ("arg", JStr (name s));
       ("mods", JDict
          [("cmd", JDict
              [("subtitle", JStr ("Delete session " ++ name s));
               ("arg", JStr ("delete:" ++ name s))]);
           ("ctrl", JDict
              [("subtitle",
                JStr (if is_attached s
                      then "Detach from session " ++ name s
                      else "Session " ++ name s ++ " already detached"));
               ("arg", JStr ("detach:" ++ name s));
               ("valid", JBool (is_attached s))])])]).
Proof.
  destruct (format_time_ago_total now (created_timestamp s)) as [c Hc].
  destruct (format_time_ago_total now (activity_timestamp s)) as [a Ha].
  exists c, a. repeat split; try assumption.
  unfold to_alfred_item, subtitle, created_ago, activity_ago.
  now rewrite Hc, Ha.
Qed.

Lemma to_alfred_items_total now sessions :
  exists items, to_alfred_items now sessions = Ok items /\
                List.length items = List.length sessions.
Proof.
  induction sessions as [|s r [items [IH Hlen]]]; simpl; [now eexists|].
  destruct (to_alfred_item_total now s) as (c & a & _ & _ & ->).
  rewrite IH. cbn [bind]. eexists. split; [reflexivity|]. simpl. now rewrite Hlen.
Qed.

(** Every run of [main] prints once and returns; the items printed are
    as follows. *)
Lemma main_prints_once argv now h :
  exists items,
    IO.run (main argv now h) = (Ok tt, [items_document items]) /\
    match get_tmux_sessions h with
    | Ok sessions =>
        exists session_items,
          to_alfred_items now
            (filter_and_sort_sessions sessions (argv_query argv))
          = Ok session_items /\
          items = if is_empty session_items then
                    if Str.truthy (argv_query argv)
                    then [create_session_prompt (argv_query argv)]
                    else [create_empty_state_prompt]
                  else session_items
    | Raise e =>
        items = if catches [FileNotFoundError] e then
                  [JDict [("title", JStr "tmux not found");
                          ("subtitle", JStr "Install tmux: brew install tmux");
                          ("valid", JBool false)]]
                else
                  [JDict [("title", JStr "Unexpected error");
                          ("subtitle", JStr (exn_str e));
                          ("valid", JBool false)]]
    end.
Proof.
  unfold main. fold (argv_query argv).
  unfold IO.run, IO.try_except, IO.bind, IO.lift.
  destruct (get_tmux_sessions h) as [sessions|e].
  - destruct (to_alfred_items_total now
                (filter_and_sort_sessions sessions (argv_query argv)))
      as [session_items [Hit _]].
    rewrite Hit. eexists. split; [reflexivity|].
    exists session_items. now split.
  - cbn [IO.dispatch].
    destruct (catches [FileNotFoundError] e).
    + eexists. split; reflexivity.
    + rewrite catches_Exception. eexists. split; reflexivity.
Qed.

End MainFacts.

(** C3.  Every run of [main] returns without raising and leaves exactly
    one text on standard output, the serialisation of an items document.
    When the session source raises the missing-executable failure the
    document is the single non-actionable "tmux not found" item with the
    installation hint; when it raises anything else the document is the
    single non-actionable "Unexpected error" item whose subtitle is the
    exception's text. *)
Theorem main_writes_one_document argv now h :
  exists items,
    IO.run (main argv now h) = (Ok tt, [dumps (JDict [("items", JList items)])]) /\
    (forall e, get_tmux_sessions h = Raise e ->
               exn_cls e = FileNotFoundError ->
               items = [JDict [("title", JStr "tmux not found");
                               ("subtitle", JStr "Install tmux: brew install tmux");
                               ("valid", JBool false)]]) /\
    (forall e, get_tmux_sessions h = Raise e ->
               exn_cls e <> FileNotFoundError ->
               items = [JDict [("title", JStr "Unexpected error");
                               ("subtitle", JStr (exn_str e));
                               ("valid", JBool false)]]) /\
    (forall e, get_tmux_sessions h = Raise e ->
               exists item, items = [item] /\ enabled item = false).
Proof.
  destruct (main_prints_once argv now h) as [items [Hrun Hitems]].
  exists items. split; [exact Hrun|].
  split; [|split]; intros e He; rewrite He in Hitems.
  - intros Hc. apply catches_FileNotFoundError in Hc. now rewrite Hc in Hitems.
  - intros Hc. rewrite <- catches_FileNotFoundError in Hc.
    apply not_true_iff_false in Hc. now rewrite Hc in Hitems.
  - destruct (catches [FileNotFoundError] e); subst items;
      eexists; split; reflexivity.
Qed.

Lemma main_writes_one_document_witness :
  IO.run (main ["tmux-sessions.py"] 1700007200 (fun _ => Subprocess.NotFound))
  = (Ok tt,
     [dumps (JDict [("items", JList
        [JDict [("title", JStr "tmux not found");
                ("subtitle", JStr "Install tmux: brew install tmux");
                ("valid", JBool false)]])])]) /\
  IO.run (main ["tmux-sessions.py"] 1700007200 host_without_permission)
  = (Ok tt,
     [dumps (JDict [("items", JList
        [JDict [("title", JStr "Unexpected error");
                ("subtitle", JStr "[Errno 13] Permission denied: 'tmux'");
                ("valid", JBool false)]])])]).
Proof.
  split.
  - destruct (main_writes_one_document ["tmux-sessions.py"] 1700007200
                (fun _ => Subprocess.NotFound)) as (items & Hrun & Hnf & _).
    rewrite Hrun.
    rewrite (Hnf (mk_exn FileNotFoundError "[Errno 2] No such file or directory")
                 eq_refl eq_refl).
    reflexivity.
  - destruct (main_writes_one_document ["tmux-sessions.py"] 1700007200
                host_without_permission) as (items & Hrun & _ & Hother & _).
    rewrite Hrun.
    rewrite (Hother (mk_exn PermissionError "[Errno 13] Permission denied: 'tmux'")
                    eq_refl ltac:(discriminate)).
    reflexivity.
Defined.

(** C8.  The item of a session has the session's name as title and as
    primary argument, a [cmd] modifier with argument "delete:" + name that
    is always enabled, and a [ctrl] modifier with argument "detach:" +
    name whose [valid] flag is the session's attachment.  When tmux prints
    the one line [work|3|1700000000|1|1700003600] and the query is empty
    (absent or blank), the document holds one item: title "work", a
    subtitle that contains "attached" and "3 windows", argument "work",
    [cmd] argument "delete:work", [ctrl] valid with argument
    "detach:work". *)
Theorem to_alfred_item_spec :
  (forall now s, exists item mods cmd ctrl,
     to_alfred_item now s = Ok item /\
     get "title" item = Some (JStr (name s)) /\
     get "arg" item = Some (JStr (name s)) /\
     get "mods" item = Some mods /\
     get "cmd" mods = Some cmd /\
     get "arg" cmd = Some (JStr ("delete:" ++ name s)) /\
     enabled cmd = true /\
     get "ctrl" mods = Some ctrl /\
     get "arg" ctrl = Some (JStr ("detach:" ++ name s)) /\
     get "valid" ctrl = Some (JBool (is_attached s))) /\
  (forall prog now, exists item sub mods cmd ctrl,
     IO.run (main [prog; EmptyString] now
               (host_printing "work|3|1700000000|1|1700003600"))
     = (Ok tt, [dumps (JDict [("items", JList [item])])]) /\
     IO.run (main [prog] now (host_printing "work|3|1700000000|1|1700003600"))
     = (Ok tt, [dumps (JDict [("items", JList [item])])]) /\
     get "title" item = Some (JStr "work") /\
     get "subtitle" item = Some (JStr sub) /\
     Str.contains "attached" sub = true /\
     Str.contains "3 windows" sub = true /\
     get "arg" item = Some (JStr "work") /\
     get "mods" item = Some mods /\
     get "cmd" mods = Some cmd /\
     get "arg" cmd = Some (JStr "delete:work") /\
     get "ctrl" mods = Some ctrl /\
     get "valid" ctrl = Some (JBool true) /\
     get "arg" ctrl = Some (JStr "detach:work")).
Proof.
  split.
  - intros now s.
    destruct (to_alfred_item_total now s) as (c & a & _ & _ & ->).
    do 4 eexists. repeat split.
  - intros prog now.
    set (work := mk_Session "work" 3 1700000000 true 1700003600).
    destruct (to_alfred_item_total now work) as (c & a & _ & _ & Hitem).
    assert (Hrun : forall argv, argv_query argv = EmptyString ->
      exists items,
        IO.run (main argv now (host_printing "work|3|1700000000|1|1700003600"))
        = (Ok tt, [items_document items]) /\
        to_alfred_items now [work] = Ok items).
    { intros argv Hq.
      destruct (main_prints_once argv now
                  (host_printing "work|3|1700000000|1|1700003600"))
        as (items & Hr & Hi).
      change (get_tmux_sessions (host_printing "work|3|1700000000|1|1700003600"))
        with (Ok [work]) in Hi.
      rewrite Hq in Hi.
      change (filter_and_sort_sessions [work] EmptyString) with [work] in Hi.
      destruct Hi as (session_items & Hs & ->).
      exists session_items. split; [|exact Hs].
      rewrite Hr. cbn [to_alfred_items] in Hs. rewrite Hitem in Hs.
      cbn [bind] in Hs. now injection Hs as <-. }
    destruct (Hrun [prog; EmptyString] eq_refl) as (i1 & Hr1 & Hi1).
    destruct (Hrun [prog] eq_refl) as (i2 & Hr2 & Hi2).
    cbn [to_alfred_items] in Hi1, Hi2. rewrite Hitem in Hi1, Hi2.
    cbn [bind] in Hi1, Hi2. injection Hi1 as <-. injection Hi2 as <-.
    do 5 eexists.
    split; [exact Hr1|]. split; [exact Hr2|].
    split; [reflexivity|]. split; [reflexivity|].
    split; [|split; [|repeat split]].
    + change (subtitle_text work c a)
        with ("🟢 attached" ++ (" • 3 windows • created " ++ c ++ " • active " ++ a)).
      apply contains_append. reflexivity.
    + change (subtitle_text work c a)
        with ("🟢 attached • 3 windows" ++ (" • created " ++ c ++ " • active " ++ a)).
      apply contains_append. reflexivity.
Qed.

(** C9.  When the source returns and filtering leaves no session, the
    document holds exactly one item, settled by the query.  A non-empty
    query that is a valid name: an actionable item offering to create the
    session, argument "create:" + query.  A non-empty query that is not a
    valid name: a non-actionable item, without argument, that reports the
    invalid name.  The empty query: the non-actionable item titled
    "No tmux sessions found". *)
Theorem main_fallback_item argv now h sessions :
  get_tmux_sessions h = Ok sessions ->
  filter_and_sort_sessions sessions (argv_query argv) = [] ->
  exists item,
    IO.run (main argv now h) = (Ok tt, [dumps (JDict [("items", JList [item])])]) /\
    (argv_query argv <> EmptyString ->
     is_valid_session_name (argv_query argv) = true ->
     get "title" item
     = Some (JStr ("Create new session " ++ quote ++ argv_query argv ++ quote)) /\
     get "arg" item = Some (JStr ("create:" ++ argv_query argv)) /\
     enabled item = true) /\
    (argv_query argv <> EmptyString ->
     is_valid_session_name (argv_query argv) = false ->
     get "title" item
     = Some (JStr ("Invalid session name " ++ quote ++ argv_query argv ++ quote)) /\
     get "arg" item = None /\
     enabled item = false) /\
    (argv_query argv = EmptyString ->
     get "title" item = Some (JStr "No tmux sessions found") /\
     get "arg" item = None /\
     enabled item = false).
Proof.
  intros Hsrc Hnone.
  destruct (main_prints_once argv now h) as (items & Hrun & Hitems).
  rewrite Hsrc, Hnone in Hitems. destruct Hitems as (session_items & Hs & ->).
  injection Hs as <-. cbn [is_empty] in Hrun.
  destruct (argv_query argv) as [|c q] eqn:Hq.
  - eexists. split; [exact Hrun|].
    split; [|split]; [congruence | congruence | now intros _].
  - cbn [Str.truthy] in Hrun. eexists. split; [exact Hrun|].
    unfold create_session_prompt.
    split; [|split]; [| |discriminate]; intros _ Hv; rewrite Hv; now repeat split.
Qed.

Lemma main_fallback_item_witness :
  exists item,
    IO.run (main ["tmux-sessions.py"; " newproj "] 1700007200
              (host_printing EmptyString))
    = (Ok tt, [dumps (JDict [("items", JList [item])])]) /\
    get "arg" item = Some (JStr "create:newproj") /\
    enabled item = true.
Proof.
  destruct (main_fallback_item ["tmux-sessions.py"; " newproj "] 1700007200
              (host_printing EmptyString) [] eq_refl eq_refl)
    as (item & Hrun & Hvalid & _ & _).
  exists item. split; [exact Hrun|].
  destruct (Hvalid ltac:(discriminate) eq_refl) as (_ & Harg & Hen).
  split; [exact Harg | exact Hen].
Defined.

(* ===================================================================== *)
(** * Further properties: the built-ins *)
(* ===================================================================== *)

Section DigitFacts.

Import Str.









End DigitFacts.

Section SplitFacts.

Import Str.




Lemma split_free sep s : free_of sep s -> split sep s = [s].
Proof.
  unfold free_of. induction s as [|c r IH]; simpl; intros H; [reflexivity|].
  destruct (Ascii.eqb_spec c sep) as [->|Hne]; [tauto|].
  rewrite IH by tauto. reflexivity.
Qed.

Lemma split_app sep a b :
  free_of sep a -> split sep (a ++ String sep b) = a :: split sep b.
Proof.
  unfold free_of. induction a as [|c r IH]; simpl; intros H.
  - now rewrite Ascii.eqb_refl.
  - destruct (Ascii.eqb_spec c sep) as [->|Hne]; [tauto|].
    rewrite IH by tauto. reflexivity.
Qed.

(** Every field [split] returns is free of the separator. *)
Lemma split_fields_free sep s f : In f (split sep s) -> free_of sep f.
Proof.
  revert f. induction s as [|c r IH]; simpl; intros f H.
  - destruct H as [<-|[]]. unfold free_of. simpl. tauto.
  - destruct (Ascii.eqb_spec c sep) as [->|Hne].
    + destruct H as [<-|H]; [unfold free_of; simpl; tauto | now apply IH].
    + destruct (split sep r) as [|g gs] eqn:E;
        [now destruct (split_nonempty sep r)|].
      destruct H as [<-|H].
      * specialize (IH g (or_introl eq_refl)). unfold free_of in *. simpl.
        intros [Hc|Hin]; [congruence | contradiction].
      * apply IH. now right.
Qed.

Lemma free_of_app_l sep a b : free_of sep (a ++ b) -> free_of sep a.
Proof.
  unfold free_of. induction a as [|c r IH]; simpl; [tauto|].
  intros H [Hc|Hin]; [tauto|]. apply IH; tauto.
Qed.

Lemma digits_value_nonneg acc s :
  0 <= acc -> all_chars is_digit_char s = true -> 0 <= digits_value acc s.
Proof.
  revert acc. induction s as [|c r IH]; intros acc Hacc H; [exact Hacc|].
  cbn [all_chars] in H. apply andb_true_iff in H as [Hc Hr].
  cbn [digits_value]. apply IH; [|exact Hr].
  unfold is_digit_char in Hc. apply andb_true_iff in Hc as [H1 _].
  apply N.leb_le in H1. unfold digit_value. lia.
Qed.

End SplitFacts.

(* ===================================================================== *)
(** * Further properties: parsing one line *)
(* ===================================================================== *)

Section ParsedFacts.

(** The two numbers read through [isdigit] cannot be negative. *)
Lemma parsed_session_bounds line s :
  parse_session_line line = Ok (Some s) ->
  0 <= windows s /\ 0 <= created_timestamp s.
Proof.
  intros H.
  destruct (Str.split "|" line) as [|p0 [|p1 [|p2 [|p3 [|p4 rest]]]]] eqn:Hs;
    try (rewrite parse_session_line_short in H by (rewrite Hs; simpl; lia);
         discriminate).
  destruct (parse_session_line_some _ _ _ _ _ _ _ _ Hs H) as (Hw & Hc & _).
  unfold windows_field in Hw. unfold created_field in Hc. split.
  - destruct (Str.isdigit p1) eqn:E; [|injection Hw as <-; lia].
    exact (int_of_isdigit_nonneg p1 _ E Hw).
  - destruct (Str.isdigit p2) eqn:E; [|injection Hc as <-; lia].
    exact (int_of_isdigit_nonneg p2 _ E Hc).
Qed.

End ParsedFacts.

(** X1.  [parse_session_line] never raises, and it answers [None] for
    the empty line and for every line of fewer than five fields. *)
Theorem parse_session_line_never_raises :
  (forall line, exists r, parse_session_line line = Ok r) /\
  parse_session_line EmptyString = Ok None /\
  (forall line, (List.length (Str.split "|" line) < 5)%nat ->
                parse_session_line line = Ok None).
Proof.
  split; [|split].
  - intros line. unfold parse_session_line.
    destruct (Str.truthy line); [|now eexists]. cbn [negb].
    destruct (Str.split "|" line) as [|p0 [|p1 [|p2 [|p3 [|p4 rest]]]]];
      try (now eexists).
    change (exists r, session_of_fields p0 p1 p2 p3 p4 = Ok r).
    rewrite session_of_fields_eq.
    destruct (windows_field p1), (created_field p2), (activity_field p2 p4);
      now eexists.
  - reflexivity.
  - intros line H. unfold parse_session_line.
    destruct (Str.truthy line); [|reflexivity]. cbn [negb].
    apply Nat.ltb_lt in H. now rewrite H.
Qed.

Lemma parse_session_line_never_raises_witness :
  parse_session_line "work|3|1700000000" = Ok None.
Proof.
  apply (proj2 (proj2 parse_session_line_never_raises) "work|3|1700000000").
  simpl. lia.
Defined.

(** X2.  The lines [parse_session_line] drops are exactly those of fewer
    than five fields and those on which one of the conversions it
    attempts raises: [int] on a second, third or fifth field that passes
    [isdigit] (a superscript digit does, and [int] refuses it), or [int]
    on the third field when the fifth is no digit string. *)
Theorem parse_session_line_none_iff line :
  let parts := Str.split "|" line in
  let p i := nth i parts EmptyString in
  parse_session_line line = Ok None <->
  (List.length parts < 5)%nat \/
  (Str.isdigit (p 1%nat) = true /\ exists e, Str.int (p 1%nat) = Raise e) \/
  (Str.isdigit (p 2%nat) = true /\ exists e, Str.int (p 2%nat) = Raise e) \/
  (Str.isdigit (p 4%nat) = true /\ exists e, Str.int (p 4%nat) = Raise e) \/
  (Str.isdigit (p 4%nat) = false /\ exists e, Str.int (p 2%nat) = Raise e).
Proof.
  intros parts p.
  destruct (Nat.lt_ge_cases (List.length parts) 5) as [Hshort|Hlong].
  - split; [now left|]. intros _. now apply parse_session_line_short.
  - subst p parts.
    destruct (Str.split "|" line) as [|p0 [|p1 [|p2 [|p3 [|p4 rest]]]]] eqn:Hs;
      try (simpl in Hlong; lia).
    rewrite (parse_session_line_rejects_iff _ _ _ _ _ _ _ Hs). cbn [nth].
    unfold windows_field, created_field, activity_field. split.
    + intros [[e H]|[[e H]|[e H]]]; right.
      * destruct (Str.isdigit p1); [|discriminate]. left. split; eauto.
      * destruct (Str.isdigit p2); [|discriminate]. right. left. split; eauto.
      * destruct (Str.isdigit p4); right; right; [left|right]; split; eauto.
    + intros [H|[[E H]|[[E H]|[[E H]|[E H]]]]]; [simpl in H; lia | | | |];
        rewrite ?E; tauto.
Qed.

Lemma parse_session_line_none_iff_witness :
  parse_session_line "dev|2|1_0_|1|soon" = Ok None /\
  parse_session_line "dev|²|1|1|1" = Ok None.
Proof.
  split.
  - apply (proj2 (parse_session_line_none_iff "dev|2|1_0_|1|soon")).
    right. right. right. right. split; [reflexivity | eexists; reflexivity].
  - apply (proj2 (parse_session_line_none_iff "dev|²|1|1|1")).
    right. left. split; [reflexivity | eexists; reflexivity].
Defined.



(** X4.  A session that [parse_session_line] returns has a window count
    and a creation time that are not negative, and its name is the text of
    the line before the first separator. *)
Theorem parse_session_line_invariants line s :
  parse_session_line line = Ok (Some s) ->
  0 <= windows s /\ 0 <= created_timestamp s /\
  free_of "|" (name s) /\
  exists tail, line = name s ++ String "|" tail.
Proof.
  intros H.
  destruct (parse_session_line_name line s H) as [tail [Hline Hfree]].
  destruct (parsed_session_bounds line s H) as [Hw Hc].
  split; [exact Hw|]. split; [exact Hc|]. split; [exact Hfree|].
  now exists tail.
Qed.

Lemma parse_session_line_invariants_witness :
  parse_session_line "dev|2|-5|1|xyz"
  = Ok (Some (mk_Session "dev" 2 0 true (-5))) /\
  0 <= windows (mk_Session "dev" 2 0 true (-5)) /\
  0 <= created_timestamp (mk_Session "dev" 2 0 true (-5)).
Proof.
  split; [reflexivity|].
  destruct (parse_session_line_invariants "dev|2|-5|1|xyz"
              (mk_Session "dev" 2 0 true (-5)) eq_refl)
    as (Hw & Hc & _).
  split; [exact Hw | exact Hc].
Defined.



(** X6.  Two lines that agree on their first five fields parse alike:
    the fields after the fifth are never looked at. *)
Theorem parse_session_line_first_five_fields l1 l2 :
  firstn 5 (Str.split "|" l1) = firstn 5 (Str.split "|" l2) ->
  (5 <= List.length (Str.split "|" l1))%nat ->
  parse_session_line l1 = parse_session_line l2.
Proof.
  intros Hfive Hlen.
  destruct (Str.split "|" l1) as [|p0 [|p1 [|p2 [|p3 [|p4 r1]]]]] eqn:H1;
    try (simpl in Hlen; lia).
  destruct (Str.split "|" l2) as [|q0 [|q1 [|q2 [|q3 [|q4 r2]]]]] eqn:H2;
    try discriminate.
  cbn [firstn] in Hfive. injection Hfive as <- <- <- <- <-.
  now rewrite (parse_session_line_fields _ _ _ _ _ _ _ H1),
              (parse_session_line_fields _ _ _ _ _ _ _ H2).
Qed.

Lemma parse_session_line_first_five_fields_witness :
  parse_session_line "work|3|1700000000|1|1700003600|extra|more"
  = parse_session_line "work|3|1700000000|1|1700003600".
Proof.
  apply parse_session_line_first_five_fields; [reflexivity | simpl; lia].
Defined.

(* ===================================================================== *)
(** * Further properties: relative ages *)
(* ===================================================================== *)

(** X7.  [format_time_ago] never raises, and its answer is "unknown",
    "just now", or a count of at least 1 followed by "d ago", "h ago" or
    "m ago". *)
Theorem format_time_ago_never_raises now ts :
  exists s, format_time_ago now ts = Ok s /\
    (s = "unknown" \/ s = "just now" \/
     exists n, 1 <= n /\
       (s = Str.str_of_int n ++ "d ago" \/ s = Str.str_of_int n ++ "h ago" \/
        s = Str.str_of_int n ++ "m ago")).
Proof.
  destruct (format_time_ago_total now ts) as [s Hs].
  exists s. split; [exact Hs|]. exact (format_time_ago_shape now ts s Hs).
Qed.

(* ===================================================================== *)
(** * Further properties: filtering and ranking *)
(* ===================================================================== *)

Section ResortFacts.

Context {A K : Type}.
Variable lt : K -> K -> bool.
Variable key : A -> K.

(** Sorting a sorted list changes nothing. *)
Lemma sorted_of_sorted l :
  StronglySorted (fun x y => lt (key y) (key x) = false) l ->
  Builtins.sorted lt key l = l.
Proof.
  induction 1 as [|x r Hr IH Hx]; [reflexivity|].
  cbn [Builtins.sorted]. rewrite IH.
  destruct r as [|y r']; [reflexivity|].
  cbn [Builtins.insert]. apply Forall_inv in Hx. now rewrite Hx.
Qed.

End ResortFacts.

Section RefineFacts.

Lemma filter_all {A : Type} (p : A -> bool) l :
  (forall x, In x l -> p x = true) -> filter p l = l.
Proof.
  induction l as [|x r IH]; intros H; [reflexivity|].
  cbn [filter]. rewrite (H x (or_introl eq_refl)), IH; [reflexivity|].
  intros y Hy. apply H. now right.
Qed.

Lemma append_assoc (a b c : string) : (a ++ b) ++ c = a ++ b ++ c.
Proof. induction a as [|x r IH]; simpl; [reflexivity | now rewrite IH]. Qed.

Lemma truthy_append a b : Str.truthy a = true -> Str.truthy (a ++ b) = true.
Proof. now destruct a. Qed.

(** A text that is not empty has a first character, spelled by at least
    one byte. *)
Lemma chars_cons b r :
  exists c rest, Unicode.chars (String b r) = c :: rest /\
                 Str.truthy (snd c) = true.
Proof.
  cbn [Unicode.chars].
  repeat match goal with
         | |- context [if ?x then _ else _] => destruct x
         | |- context [match ?x with _ => _ end] => destruct x
         end;
    do 2 eexists; split; reflexivity.
Qed.

Lemma encode_truthy c : Str.truthy (Unicode.encode c) = true.
Proof.
  unfold Unicode.encode.
  repeat match goal with
         | |- context [if ?x then _ else _] => destruct x
         end; reflexivity.
Qed.

Lemma lower_char_truthy before c after :
  Str.truthy (snd c) = true -> Str.truthy (Str.lower_char before c after) = true.
Proof.
  intros Hc. unfold Str.lower_char.
  destruct (fst c =? 931)%N; [apply encode_truthy|].
  unfold Unicode.lower.
  destruct (fst c <? 128)%N.
  - destruct (_ =? fst c)%N; [exact Hc | apply encode_truthy].
  - destruct (fst c =? 304)%N; [reflexivity|].
    destruct (find _ _) as [[[[lo hi] step] delta]|].
    + destruct (_ =? fst c)%N; [exact Hc | apply encode_truthy].
    + rewrite N.eqb_refl. exact Hc.
Qed.

(** Lowering keeps an empty text empty and no other. *)
Lemma truthy_lower q : Str.truthy (Str.lower q) = Str.truthy q.
Proof.
  destruct q as [|b r]; [reflexivity|].
  unfold Str.lower. destruct (chars_cons b r) as (c & rest & -> & Hc).
  cbn [Str.lower_chars Str.truthy].
  apply truthy_append. now apply lower_char_truthy.
Qed.

End RefineFacts.

(** X10.  Ranking is idempotent: ranking the result again under the same
    query returns it unchanged. *)
Theorem filter_and_sort_sessions_idempotent sessions query :
  filter_and_sort_sessions (filter_and_sort_sessions sessions query) query
  = filter_and_sort_sessions sessions query.
Proof.
  unfold filter_and_sort_sessions at 1.
  rewrite filter_all.
  - apply sorted_of_sorted.
    exact (filter_and_sort_sessions_sorted sessions query).
  - intros s Hs.
    apply (Permutation_in _ (filter_and_sort_sessions_perm sessions query)) in Hs.
    now apply filter_In in Hs.
Qed.

(** X11.  The result is characterised by three facts: it rearranges the
    matching sessions, it is sorted by the key (detached after attached,
    then later activity first, then lower-cased name), and sessions of
    one and the same key keep their input order.  No other list has the
    three. *)
Theorem filter_and_sort_sessions_characterised sessions query out :
  out = filter_and_sort_sessions sessions query <->
  Permutation out (filter (matches_query query) sessions) /\
  StronglySorted (fun a b => key_le (session_key a) (session_key b)) out /\
  (forall k, filter (fun s => key_eqb (session_key s) k) out
             = filter (fun s => key_eqb (session_key s) k)
                      (filter (matches_query query) sessions)).
Proof.
  split.
  - intros ->. split; [|split].
    + apply filter_and_sort_sessions_perm.
    + apply filter_and_sort_sessions_sorted.
    + intros k. apply filter_and_sort_sessions_stable.
  - intros (Hperm & Hsorted & Hstable).
    now apply filter_and_sort_sessions_unique.
Qed.

Lemma filter_and_sort_sessions_characterised_witness :
  [sample_attached; sample_detached]
  = filter_and_sort_sessions [sample_detached; sample_attached] "ma".
Proof.
  apply (proj2 (filter_and_sort_sessions_characterised
                  [sample_detached; sample_attached] "ma"
                  [sample_attached; sample_detached])).
  split; [|split].
  - apply perm_swap.
  - repeat constructor.
  - intros [[k1 k2] k3]. cbn [filter matches_query]. cbn.
    destruct k1; cbn; [|destruct (1700000100 ?= - k2); reflexivity].
    destruct (-1700009000 ?= k2); reflexivity.
Defined.

(** X13.  The case of the query's letters is immaterial: two queries with
    the same lower-cased text rank alike. *)
Theorem filter_and_sort_sessions_query_case sessions q q' :
  Str.lower q = Str.lower q' ->
  filter_and_sort_sessions sessions q = filter_and_sort_sessions sessions q'.
Proof.
  intros Hl. unfold filter_and_sort_sessions. f_equal.
  apply filter_ext. intros s. unfold matches_query.
  now rewrite <- (truthy_lower q), <- (truthy_lower q'), Hl.
Qed.

Lemma filter_and_sort_sessions_query_case_witness :
  filter_and_sort_sessions [sample_detached; sample_attached] "MA"
  = filter_and_sort_sessions [sample_detached; sample_attached] "ma".
Proof.
  apply filter_and_sort_sessions_query_case. reflexivity.
Defined.

(* ===================================================================== *)
(** * Further properties: the session source *)
(* ===================================================================== *)

Section StripFacts.

Import Str.

Lemma continuation_ascii b :
  (N_of_ascii b <? 128)%N = true -> Unicode.continuation b = None.
Proof.
  intros H. apply N.ltb_lt in H. unfold Unicode.continuation.
  destruct (N.leb_spec 128 (N_of_ascii b)); [lia | reflexivity].
Qed.

Lemma append_nil_r (s : string) : s ++ EmptyString = s.
Proof. induction s as [|c r IH]; simpl; [reflexivity | now rewrite IH]. Qed.

(** ASCII text put after any bytes is read on its own: no sequence left
    open before it can take an ASCII byte in. *)
Lemma chars_ascii_suffix a1 a' :
  (N_of_ascii a1 <? 128)%N = true ->
  forall n x, (String.length x <= n)%nat ->
    Unicode.chars (x ++ String a1 a')
    = (Unicode.chars x ++ Unicode.chars (String a1 a'))%list.
Proof.
  intros Ha. pose proof (continuation_ascii a1 Ha) as Hcont.
  induction n as [|n IH]; intros x Hlen.
  - destruct x; [reflexivity | simpl in Hlen; lia].
  - destruct x as [|b0 r0]; [reflexivity|].
    assert (IH0 : Unicode.chars (r0 ++ String a1 a')
                  = (Unicode.chars r0 ++ Unicode.chars (String a1 a'))%list)
      by (apply IH; simpl in Hlen; lia).
    cbn [append]. cbn [Unicode.chars]. fold Unicode.chars.
    destruct (N_of_ascii b0 <? 128)%N; [now rewrite IH0|].
    destruct r0 as [|b1 r1].
    { cbn [append] in *. now rewrite Hcont, IH0. }
    cbn [append] in *.
    destruct (Unicode.continuation b1) as [n1|]; [|now rewrite IH0].
    destruct ((194 <=? N_of_ascii b0) && (N_of_ascii b0 <=? 223))%N.
    { cbn [app]. f_equal. apply IH. simpl in Hlen. lia. }
    destruct (negb (Unicode.second_fits (N_of_ascii b0) n1)); [now rewrite IH0|].
    destruct r1 as [|b2 r2].
    { cbn [append] in *. now rewrite Hcont, IH0. }
    cbn [append] in *.
    destruct (Unicode.continuation b2); [|now rewrite IH0].
    destruct ((224 <=? N_of_ascii b0) && (N_of_ascii b0 <=? 239))%N.
    { cbn [app]. f_equal. apply IH. simpl in Hlen. lia. }
    destruct r2 as [|b3 r3].
    { cbn [append] in *. now rewrite Hcont, IH0. }
    cbn [append] in *.
    destruct (Unicode.continuation b3); [|now rewrite IH0].
    destruct ((240 <=? N_of_ascii b0) && (N_of_ascii b0 <=? 244))%N;
      [|now rewrite IH0].
    cbn [app]. f_equal. apply IH. simpl in Hlen. lia.
Qed.

Lemma chars_app_ascii x a :
  all_chars (fun c => (N_of_ascii c <? 128)%N) a = true ->
  Unicode.chars (x ++ a) = (Unicode.chars x ++ Unicode.chars a)%list.
Proof.
  destruct a as [|a1 a']; intros H.
  - now rewrite append_nil_r, app_nil_r.
  - cbn [all_chars] in H. apply andb_true_iff in H as [H1 _].
    now apply (chars_ascii_suffix a1 a' H1 (String.length x)).
Qed.

Lemma chars_ascii_app a x :
  all_chars (fun c => (N_of_ascii c <? 128)%N) a = true ->
  Unicode.chars (a ++ x) = (Unicode.chars a ++ Unicode.chars x)%list.
Proof.
  induction a as [|c r IH]; [reflexivity|].
  cbn [all_chars]. intros H. apply andb_true_iff in H as [Hc Hr].
  cbn [append]. cbn [Unicode.chars]. fold Unicode.chars.
  rewrite Hc. cbn [app]. now rewrite IH.
Qed.

Lemma lstrip_chars_all ws : spaces ws = true -> lstrip_chars ws = [].
Proof.
  induction ws as [|c r IH]; [reflexivity|].
  cbn [spaces forallb lstrip_chars]. intros H.
  apply andb_true_iff in H as [Hc Hr]. rewrite Hc. now apply IH.
Qed.

Lemma lstrip_chars_skip ws cs :
  spaces ws = true -> lstrip_chars (ws ++ cs) = lstrip_chars cs.
Proof.
  induction ws as [|c r IH]; [reflexivity|].
  cbn [spaces forallb app lstrip_chars]. intros H.
  apply andb_true_iff in H as [Hc Hr]. rewrite Hc. now apply IH.
Qed.

Lemma rstrip_chars_all ws : spaces ws = true -> rstrip_chars ws = [].
Proof.
  induction ws as [|c r IH]; [reflexivity|].
  cbn [spaces forallb rstrip_chars]. intros H.
  apply andb_true_iff in H as [Hc Hr]. now rewrite (IH Hr), Hc.
Qed.

Lemma rstrip_chars_skip cs ws :
  spaces ws = true -> rstrip_chars (cs ++ ws) = rstrip_chars cs.
Proof.
  intros Hw. induction cs as [|c r IH].
  - cbn [app]. now rewrite rstrip_chars_all.
  - cbn [app rstrip_chars]. now rewrite IH.
Qed.

Lemma strip_chars_skip_r cs ws :
  spaces ws = true ->
  rstrip_chars (lstrip_chars (cs ++ ws)) = rstrip_chars (lstrip_chars cs).
Proof.
  intros Hw. induction cs as [|c r IH].
  - cbn [app]. now rewrite (lstrip_chars_all ws Hw).
  - cbn [app lstrip_chars]. destruct (Unicode.is_space (fst c)); [exact IH|].
    change (c :: (r ++ ws)%list) with ((c :: r) ++ ws)%list.
    now apply rstrip_chars_skip.
Qed.

(** The characters of ASCII white space are white space. *)
Lemma chars_ascii_spaces a :
  all_chars is_ascii_space a = true -> spaces (Unicode.chars a) = true.
Proof.
  induction a as [|c r IH]; [reflexivity|].
  cbn [all_chars]. intros H. apply andb_true_iff in H as [Hc Hr].
  assert (Hlt : (N_of_ascii c <? 128)%N = true).
  { unfold is_ascii_space in Hc. apply N.ltb_lt.
    apply orb_true_iff in Hc as [Hc|Hc]; apply andb_true_iff in Hc as [_ Hc];
      apply N.leb_le in Hc; lia. }
  cbn [Unicode.chars]. fold Unicode.chars. rewrite Hlt.
  cbn [spaces forallb fst]. unfold Unicode.is_space. rewrite Hlt.
  unfold is_ascii_space in Hc. rewrite Hc. exact (IH Hr).
Qed.

Lemma ascii_space_is_ascii a :
  all_chars is_ascii_space a = true ->
  all_chars (fun c => (N_of_ascii c <? 128)%N) a = true.
Proof.
  apply all_chars_impl. intros c Hc. unfold is_ascii_space in Hc.
  apply N.ltb_lt.
  apply orb_true_iff in Hc as [Hc|Hc]; apply andb_true_iff in Hc as [_ Hc];
    apply N.leb_le in Hc; lia.
Qed.

(** ASCII white space around a text does not change what stripping
    leaves. *)
Lemma strip_padding a s b :
  all_chars is_ascii_space a = true -> all_chars is_ascii_space b = true ->
  strip (a ++ s ++ b) = strip s.
Proof.
  intros Ha Hb. unfold strip.
  rewrite (chars_ascii_app a (s ++ b) (ascii_space_is_ascii a Ha)).
  rewrite (chars_app_ascii s b (ascii_space_is_ascii b Hb)).
  rewrite (lstrip_chars_skip _ _ (chars_ascii_spaces a Ha)).
  now rewrite (strip_chars_skip_r _ _ (chars_ascii_spaces b Hb)).
Qed.

(** A text of white space only strips to nothing. *)
Lemma strip_blank q :
  forallb Unicode.is_space (Unicode.code_points q) = true ->
  strip q = EmptyString.
Proof.
  intros H. unfold strip. rewrite lstrip_chars_all; [reflexivity|].
  unfold Unicode.code_points in H. unfold spaces.
  rewrite forallb_forall in *. intros c Hc. apply H.
  now apply in_map.
Qed.

End StripFacts.

Section ReturnedFacts.

Lemma parsed_sessions_In lines s :
  In s (parsed_sessions lines) <->
  exists line, In line lines /\ parse_session_line line = Ok (Some s).
Proof.
  unfold parsed_sessions. rewrite in_flat_map. split.
  - intros [line [Hin Hs]]. exists line. split; [exact Hin|].
    destruct (parse_session_line line) as [[s'|]|e]; try contradiction.
    destruct Hs as [->|[]]. reflexivity.
  - intros [line [Hin Hs]]. exists line. split; [exact Hin|].
    rewrite Hs. now left.
Qed.

(** Where a returned session comes from. *)
Lemma get_tmux_sessions_In h sessions s :
  get_tmux_sessions h = Ok sessions -> In s sessions ->
  exists out line,
    Subprocess.run h tmux_command = Ok out /\
    In line (Str.split newline (Str.strip out)) /\
    parse_session_line line = Ok (Some s).
Proof.
  rewrite get_tmux_sessions_eq. intros H Hin.
  destruct (Subprocess.run h tmux_command) as [out|e].
  - injection H as <-. apply parsed_sessions_In in Hin as [line [Hl Hs]].
    now exists out, line.
  - destruct (orb _ _); [|discriminate]. injection H as <-. contradiction.
Qed.

End ReturnedFacts.

(** X14.  Every session [get_tmux_sessions] returns has a window count
    and a creation time that are not negative, and a name that holds
    neither the field separator nor a line break. *)
Theorem get_tmux_sessions_invariants h sessions :
  get_tmux_sessions h = Ok sessions ->
  Forall (fun s => 0 <= windows s /\ 0 <= created_timestamp s /\
                   free_of "|" (name s) /\ free_of newline (name s))
         sessions.
Proof.
  intros H. apply Forall_forall. intros s Hin.
  destruct (get_tmux_sessions_In h sessions s H Hin)
    as (out & line & _ & Hline & Hparse).
  destruct (parsed_session_bounds line s Hparse) as [Hw Hc].
  destruct (parse_session_line_name line s Hparse) as [tail [Heq Hfree]].
  split; [exact Hw|]. split; [exact Hc|]. split; [exact Hfree|].
  apply (free_of_app_l newline (name s) (String "|" tail)).
  rewrite <- Heq. exact (split_fields_free newline _ line Hline).
Qed.

Lemma get_tmux_sessions_invariants_witness :
  Forall (fun s => 0 <= windows s /\ 0 <= created_timestamp s /\
                   free_of "|" (name s) /\ free_of newline (name s))
         [mk_Session "work" 3 1700000000 true 1700003600].
Proof.
  apply (get_tmux_sessions_invariants
           (host_printing "work|3|1700000000|1|1700003600")).
  reflexivity.
Defined.

(** X15.  ASCII white space before and after the output of tmux (the
    final line break, for one) does not change the sessions returned. *)
Theorem get_tmux_sessions_padding before out after :
  Str.all_chars is_ascii_space before = true ->
  Str.all_chars is_ascii_space after = true ->
  get_tmux_sessions (host_printing (before ++ out ++ after))
  = get_tmux_sessions (host_printing out).
Proof.
  intros Hb Ha. rewrite !get_tmux_sessions_eq.
  unfold Subprocess.run, host_printing. cbn [Z.eqb].
  now rewrite (strip_padding before out after Hb Ha).
Qed.

Lemma get_tmux_sessions_padding_witness :
  get_tmux_sessions (host_printing (" " ++ "work|3|1700000000|1|1700003600" ++ "
"))
  = get_tmux_sessions (host_printing "work|3|1700000000|1|1700003600").
Proof.
  apply get_tmux_sessions_padding; reflexivity.
Defined.

(* ===================================================================== *)
(** * Further properties: items and the entry point *)
(* ===================================================================== *)

Section ItemFacts.

(** The items of a list of sessions, field by field. *)
Lemma to_alfred_items_fields now sessions items :
  to_alfred_items now sessions = Ok items ->
  map (get "title") items = map (fun s => Some (JStr (name s))) sessions /\
  map (get "arg") items = map (fun s => Some (JStr (name s))) sessions /\
  Forall (fun item => enabled item = true) items.
Proof.
  revert items. induction sessions as [|s r IH]; intros items H.
  - injection H as <-. repeat split. constructor.
  - cbn [to_alfred_items] in H.
    destruct (to_alfred_item_total now s) as (c & a & _ & _ & Hitem).
    rewrite Hitem in H. cbn [bind] in H.
    destruct (to_alfred_items now r) as [rest|e]; [|discriminate].
    cbn [bind] in H. injection H as <-.
    destruct (IH rest eq_refl) as (Ht & Ha & Hen).
    cbn [map]. rewrite Ht, Ha. repeat split. now constructor.
Qed.

Lemma create_session_prompt_title query :
  exists t, get "title" (create_session_prompt query) = Some (JStr t).
Proof.
  unfold create_session_prompt.
  destruct (is_valid_session_name query); eexists; reflexivity.
Qed.

Lemma valid_name_free_of_colon q :
  is_valid_session_name q = true -> free_of ":" q.
Proof.
  intros H. unfold is_valid_session_name, INVALID_SESSION_CHARS in H.
  cbn [existsb] in H. apply andb_true_iff in H as [_ H].
  apply negb_true_iff in H. apply orb_false_iff in H as [_ H].
  apply orb_false_iff in H as [H _].
  unfold free_of. intros Hin. apply contains_char in Hin. congruence.
Qed.

End ItemFacts.

(** X16.  When the source returns and at least one session matches, the
    document lists the ranked sessions and nothing else: one actionable
    item for each, in rank order, titled and argued by the session's
    name. *)
Theorem main_lists_ranked_sessions argv now h sessions :
  get_tmux_sessions h = Ok sessions ->
  filter_and_sort_sessions sessions (argv_query argv) <> [] ->
  exists items,
    IO.run (main argv now h) = (Ok tt, [dumps (JDict [("items", JList items)])]) /\
    map (get "title") items
    = map (fun s => Some (JStr (name s)))
          (filter_and_sort_sessions sessions (argv_query argv)) /\
    map (get "arg") items
    = map (fun s => Some (JStr (name s)))
          (filter_and_sort_sessions sessions (argv_query argv)) /\
    Forall (fun item => enabled item = true) items.
Proof.
  intros Hsrc Hsome.
  destruct (main_prints_once argv now h) as (items & Hrun & Hitems).
  rewrite Hsrc in Hitems. destruct Hitems as (session_items & Hs & ->).
  destruct (to_alfred_items_fields now _ _ Hs) as (Ht & Ha & Hen).
  destruct session_items as [|item rest].
  - destruct (filter_and_sort_sessions sessions (argv_query argv));
      [contradiction | discriminate].
  - cbn [is_empty] in Hrun. eexists. split; [exact Hrun|]. now repeat split.
Qed.

Lemma main_lists_ranked_sessions_witness :
  exists items,
    IO.run (main ["tmux-sessions.py"; "ma"] 1700007200
              (host_printing "Mail|1|1700000000|0|1700009000
main|2|1700000000|1|1700000100"))
    = (Ok tt, [dumps (JDict [("items", JList items)])]) /\
    map (get "title") items = [Some (JStr "main"); Some (JStr "Mail")].
Proof.
  destruct (main_lists_ranked_sessions ["tmux-sessions.py"; "ma"] 1700007200
              (host_printing "Mail|1|1700000000|0|1700009000
main|2|1700000000|1|1700000100")
              [sample_detached; sample_attached] eq_refl ltac:(discriminate))
    as (items & Hrun & Ht & _).
  exists items. split; [exact Hrun | exact Ht].
Defined.

(** X17.  Whatever the arguments, the clock and the host, the document
    [main] prints is never empty, and every item in it has a title. *)
Theorem main_items_titled argv now h :
  exists item rest,
    IO.run (main argv now h)
    = (Ok tt, [dumps (JDict [("items", JList (item :: rest))])]) /\
    Forall (fun i => exists t, get "title" i = Some (JStr t)) (item :: rest).
Proof.
  destruct (main_prints_once argv now h) as (items & Hrun & Hitems).
  destruct (get_tmux_sessions h) as [sessions|e].
  - destruct Hitems as (session_items & Hs & ->).
    destruct (to_alfred_items_fields now _ _ Hs) as (Ht & _ & _).
    destruct session_items as [|item rest]; cbn [is_empty] in Hrun.
    + destruct (Str.truthy (argv_query argv)); do 2 eexists;
        (split; [exact Hrun|]); repeat constructor.
      * apply create_session_prompt_title.
      * now eexists.
    + exists item, rest. split; [exact Hrun|].
      apply Forall_forall. intros i Hi.
      apply (in_map (get "title")) in Hi. rewrite Ht in Hi.
      apply in_map_iff in Hi as [s [Heq _]]. now exists (name s).
  - subst items. destruct (catches [FileNotFoundError] e);
      do 2 eexists; (split; [exact Hrun|]); repeat constructor; now eexists.
Qed.

(** X18.  A query of white space only (that of Unicode, the no-break
    space included) is no query, and arguments after the first are not
    read: both runs print what the run they reduce to prints. *)
Theorem main_blank_query prog query more now h :
  (forallb Unicode.is_space (Unicode.code_points query) = true ->
   IO.run (main [prog; query] now h) = IO.run (main [prog] now h)) /\
  IO.run (main (prog :: query :: more) now h)
  = IO.run (main [prog; query] now h).
Proof.
  split; [|reflexivity].
  intros Hblank. unfold main. cbn [List.length Nat.ltb Nat.leb nth].
  now rewrite (strip_blank query Hblank).
Qed.

Lemma main_blank_query_witness :
  IO.run (main ["tmux-sessions.py"; "   "] 1700007200 (host_printing "work|3|1700000000|1|1700003600"))
  = IO.run (main ["tmux-sessions.py"] 1700007200 (host_printing "work|3|1700000000|1|1700003600")).
Proof.
  apply (proj1 (main_blank_query "tmux-sessions.py" "   " [] 1700007200
                  (host_printing "work|3|1700000000|1|1700003600"))).
  reflexivity.
Defined.

(** X19.  The argument of a creation prompt decodes without ambiguity: a
    valid name holds no colon, so splitting "create:" + name at colons
    gives back the tag and the name. *)
Theorem create_session_prompt_arg_decodes query :
  is_valid_session_name query = true ->
  get "arg" (create_session_prompt query) = Some (JStr ("create:" ++ query)) /\
  Str.split ":" ("create:" ++ query) = ["create"; query].
Proof.
  intros Hv. split.
  - unfold create_session_prompt. now rewrite Hv.
  - change ("create:" ++ query) with ("create" ++ String ":" query).
    rewrite split_app by (unfold free_of; simpl; intuition discriminate).
    now rewrite (split_free ":" query (valid_name_free_of_colon query Hv)).
Qed.

Lemma create_session_prompt_arg_decodes_witness :
  Str.split ":" ("create:" ++ "newproj") = ["create"; "newproj"].
Proof.
  apply (create_session_prompt_arg_decodes "newproj"). reflexivity.
Defined.

(** X20.  A session's subtitle never fails to build, whatever the two
    timestamps are; it always names the attachment status and the window
    count, and it is the subtitle of the session's item. *)
Theorem to_alfred_item_subtitle now s :
  exists sub item,
    subtitle now s = Ok sub /\
    Str.contains (if is_attached s then "attached" else "detached") sub = true /\
    Str.contains (Str.str_of_int (windows s) ++ " windows") sub = true /\
    to_alfred_item now s = Ok item /\
    get "subtitle" item = Some (JStr sub).
Proof.
  destruct (to_alfred_item_total now s) as (c & a & Hc & Ha & Hitem).
  exists (subtitle_text s c a). eexists.
  split; [|split; [|split; [|split; [exact Hitem | reflexivity]]]].
  - unfold subtitle, created_ago, activity_ago. now rewrite Hc, Ha.
  - unfold subtitle_text, status_emoji. apply contains_append.
    now destruct (is_attached s).
  - unfold subtitle_text. apply contains_iff.
    exists (status_emoji s ++ " • "),
           (" • created " ++ c ++ " • active " ++ a).
    now rewrite !append_assoc.
Qed.

Section TopFacts.


End TopFacts.



(** X22.  If any matching session is attached, the session ranked first
    is attached. *)
Theorem filter_and_sort_sessions_top_attached sessions query s :
  In s sessions -> matches_query query s = true -> is_attached s = true ->
  exists top rest,
    filter_and_sort_sessions sessions query = top :: rest /\
    is_attached top = true.
Proof.
  intros Hin Hm Hatt.
  assert (Hout : In s (filter_and_sort_sessions sessions query)).
  { apply (Permutation_in _
             (Permutation_sym (filter_and_sort_sessions_perm sessions query))).
    now apply filter_In. }
  pose proof (filter_and_sort_sessions_sorted sessions query) as Hsorted.
  destruct (filter_and_sort_sessions sessions query) as [|top rest];
    [contradiction|].
  exists top, rest. split; [reflexivity|].
  destruct Hout as [->|Hrest]; [exact Hatt|].
  apply StronglySorted_inv in Hsorted as [_ Htop].
  rewrite Forall_forall in Htop.
  destruct (key_le_sessions top s (Htop s Hrest)) as [Hfirst _].
  now apply Hfirst.
Qed.

Lemma filter_and_sort_sessions_top_attached_witness :
  exists top rest,
    filter_and_sort_sessions [sample_detached; sample_attached] EmptyString
    = top :: rest /\
    is_attached top = true.
Proof.
  apply (filter_and_sort_sessions_top_attached
           [sample_detached; sample_attached] EmptyString sample_attached).
  - right. now left.
  - reflexivity.
  - reflexivity.
Defined.
